(** * The Odoo session-bridging relay: a shallow embedding and its properties

    The repository holds two variants of one Express application:
    [src/server.js] and a second, unnamed file ([src/unnamed/part_000]).
    Both expose [POST /api/login] and [POST /api/odoo] behind the
    [verifyApiKey] middleware and keep one process-wide variable,
    [odooSessionCookie].

    The handlers are embedded as programs of a small state-and-exception
    monad over a [world] that holds the process-wide variable, the trace of
    outbound [axios.post] calls, the number of [Math.random] draws, the
    console and the response object of the request being served.  The
    upstream server and the random source are parameters.  Requests are
    served one at a time: the interleaving of two handlers at an [await]
    is not part of the model. *)

From Stdlib Require Import String Ascii List ZArith Bool Lia DecimalString.
Import ListNotations.
Local Open Scope string_scope.
Local Open Scope Z_scope.
Local Set Warnings "-register-all".

(** ** JavaScript values *)

Module Js.

(** The values the handlers manipulate: what [JSON.parse] produces, plus
    [undefined].  Numbers are the integer-valued ones (identifiers, status
    codes): [VNum n] is the double nearest to [n]; a value with a
    fractional number is outside the model.  An object is the list of its
    own properties, in insertion order. *)
Inductive value : Type :=
| VUndefined
| VNull
| VBool (b : bool)
| VNum (n : Z)
| VStr (s : string)
| VArr (items : list value)
| VObj (fields : list (string * value)).

(** ToBoolean. *)
Definition truthy (v : value) : bool :=
  match v with
  | VUndefined | VNull => false
  | VBool b => b
  | VNum n => negb (n =? 0)
  | VStr s => negb (s =? EmptyString)%string
  | VArr _ | VObj _ => true
  end.

(** [null] and [undefined] are the two values a property cannot be read
    from. *)
Definition nullish (v : value) : bool :=
  match v with
  | VUndefined | VNull => true
  | _ => false
  end.

Fixpoint assoc {A : Type} (k : string) (l : list (string * A)) : option A :=
  match l with
  | [] => None
  | (k', a) :: rest => if (k =? k')%string then Some a else assoc k rest
  end.

(** [v.k] for a [v] that is not nullish.  The property names read by the
    handlers ([odooConfig], [db], [result], [uid], [error], [message], ...)
    are inherited by no primitive and no array, so only an object's own
    fields can answer.  (On a nullish [v] the read throws; see [Relay.get].) *)
Definition prop (v : value) (k : string) : value :=
  match v with
  | VObj fields =>
      match assoc k fields with
      | Some x => x
      | None => VUndefined
      end
  | _ => VUndefined
  end.

Definition string_of_Z (n : Z) : string := NilZero.string_of_int (Z.to_int n).

(** *** Numbers as text

    [VNum n] stands for the double nearest to the integer [n].  Printing it
    follows Number::toString: the shortest digits that read back as the
    same double, in plain decimal below 1e21 and in exponent form from
    there on. *)

(** The double nearest to a non-negative integer, ties to the even
    mantissa; [None] when it overflows to Infinity. *)
Definition double_of (n : Z) : option Z :=
  if n <? 2 ^ 53 then Some n
  else
    let sh := Z.log2 n - 52 in
    let m := Z.shiftr n sh in
    let r := n - Z.shiftl m sh in
    let half := Z.shiftl 1 (sh - 1) in
    let m' := if (half <? r) || ((r =? half) && Z.odd m) then m + 1 else m in
    let d := Z.shiftl m' sh in
    if d <? 2 ^ 1024 then Some d else None.

Definition reads_as (d x : Z) : bool :=
  match double_of x with
  | Some y => y =? d
  | None => false
  end.

(** The integer with the fewest significant digits that reads back as the
    double [d] (of [nd] decimal digits), the closest one when two have as
    few, trying [k], [k+1], ... digits. *)
Fixpoint shortest (fuel k : nat) (d : Z) (nd : nat) : Z :=
  match fuel with
  | O => d
  | S fuel' =>
      let scale := 10 ^ Z.of_nat (nd - k) in
      let lo := (d / scale) * scale in
      let hi := lo + scale in
      match reads_as d lo, reads_as d hi with
      | true, true =>
          if d - lo <? hi - d then lo
          else if hi - d <? d - lo then hi
          else if Z.even (d / scale) then lo else hi
      | true, false => lo
      | false, true => hi
      | false, false => shortest fuel' (S k) d nd
      end
  end.

Fixpoint strip_zeros (s : string) : string :=
  match s with
  | EmptyString => EmptyString
  | String a rest =>
      match strip_zeros rest with
      | EmptyString => if Ascii.eqb a "0" then EmptyString else String a EmptyString
      | rest' => String a rest'
      end
  end.

Definition exponent_form (digits : string) : string :=
  let e := string_of_Z (Z.of_nat (String.length digits) - 1) in
  match strip_zeros digits with
  | EmptyString => digits
  | String a EmptyString => String a EmptyString ++ "e+" ++ e
  | String a rest => String a EmptyString ++ "." ++ rest ++ "e+" ++ e
  end.

Definition number_to_string (n : Z) : string :=
  if n =? 0 then "0"
  else
    let sign := if n <? 0 then "-" else EmptyString in
    match double_of (Z.abs n) with
    | None => sign ++ "Infinity"
    | Some d =>
        let nd := String.length (string_of_Z d) in
        let v := shortest nd 1 d nd in
        sign ++ (if v <? 10 ^ 21 then string_of_Z v
                 else exponent_form (string_of_Z v))
    end.

(** ToString, as a template literal applies it. *)
Fixpoint to_string (v : value) : string :=
  match v with
  | VUndefined => "undefined"
  | VNull => "null"
  | VBool true => "true"
  | VBool false => "false"
  | VNum n => number_to_string n
  | VStr s => s
  | VArr items =>
      String.concat ","
        (map (fun x => if nullish x then EmptyString else to_string x) items)
  | VObj _ => "[object Object]"
  end.

(** ToInt32 of a number, [n | 0]. *)
Definition int32 (n : Z) : Z :=
  match double_of (Z.abs n) with
  | None => 0
  | Some d => (Z.sgn n * d + 2 ^ 31) mod 2 ^ 32 - 2 ^ 31
  end.

(** [s.split(c)] for a one-character separator: the pieces between the
    occurrences of [c]; never empty. *)
Fixpoint split (c : ascii) (s : string) : list string :=
  match s with
  | EmptyString => [EmptyString]
  | String a rest =>
      if Ascii.eqb a c then EmptyString :: split c rest
      else
        match split c rest with
        | [] => [String a EmptyString]
        | piece :: pieces => String a piece :: pieces
        end
  end.

(** [arr[0]] on an array of strings, as [join] would print it. *)
Definition first (pieces : list string) : string := nth 0 pieces EmptyString.

(** [arr.join(sep)]. *)
Definition join (sep : string) (pieces : list string) : string :=
  String.concat sep pieces.

(** [arr.indexOf(x)] on an array of strings: the position of the first
    element strictly equal to [x], or -1. *)
Fixpoint indexOf (x : string) (arr : list string) : Z :=
  match arr with
  | [] => -1
  | y :: rest =>
      if (x =? y)%string then 0
      else let i := indexOf x rest in if i =? -1 then -1 else i + 1
  end.

End Js.

(** ** The runtime the handlers run in: Express, axios, the process *)

Module Relay.
Import Js.

(** An inbound request, as the middleware chain sees it: the header table
    of Node (names in lower case) and the body left by [express.json()]. *)
Record request := mkRequest {
  req_headers : list (string * string);
  req_body : value
}.

(** What [axios.post(url, payload, config)] is called with. *)
Record axios_config := mkConfig {
  cfg_headers : list (string * value);
  cfg_withCredentials : bool;
  cfg_timeout : Z
}.

Record axios_call := mkCall {
  call_url : string;
  call_payload : value;
  call_config : axios_config
}.

(** An upstream HTTP response as axios presents it: [status],
    [headers['set-cookie']] (Node delivers this header as an array of
    strings, or not at all) and the parsed [data]. *)
Record axios_response := mkResponse {
  resp_status : Z;
  resp_set_cookie : option (list string);
  resp_data : value
}.

(** What the network does with an outbound call: the upstream answers with
    some status, or no answer arrives (timeout, DNS, connection refused);
    then only a message is known. *)
Inductive transport : Type :=
| HttpReply (r : axios_response)
| NoReply (msg : string).

(** A thrown JavaScript error, as far as the handlers look at it:
    [error.message] and [error.response] (set by axios on a reply whose
    status it rejects, undefined on every other error). *)
Record js_error := mkError {
  err_message : string;
  err_response : option axios_response
}.

Inductive level : Type := Log | Warn | Error.

(** What the model leaves to the JavaScript engine and to Node: the number
    read out of a text by [text | 0], and the rendering of an array or an
    object by the [%s] of Node's error messages. *)
Record engine := mkEngine {
  text_to_int32 : string -> Z;
  inspect : value -> string
}.

(** The runtime and the mutable state: the engine (which never changes),
    the process-wide [odooSessionCookie], the outbound
    calls made so far (oldest first), the number of [Math.random()] draws,
    the console (first argument of each call), and the [res] object of the
    request being served ([res.statusCode] and the response once sent). *)
Record world := mkWorld {
  node : engine;
  odooSessionCookie : value;
  calls : list axios_call;
  draws : nat;
  console : list (level * string);
  statusCode : value;
  sent : option (value * value)
}.

Definition with_cookie (c : value) (w : world) : world :=
  mkWorld (node w) c (calls w) (draws w) (console w) (statusCode w) (sent w).
Definition with_call (c : axios_call) (w : world) : world :=
  mkWorld (node w) (odooSessionCookie w) (calls w ++ [c]) (draws w) (console w)
          (statusCode w) (sent w).
Definition with_draw (w : world) : world :=
  mkWorld (node w) (odooSessionCookie w) (calls w) (S (draws w)) (console w)
          (statusCode w) (sent w).
Definition with_line (l : level * string) (w : world) : world :=
  mkWorld (node w) (odooSessionCookie w) (calls w) (draws w) (console w ++ [l])
          (statusCode w) (sent w).
Definition with_status (s : value) (w : world) : world :=
  mkWorld (node w) (odooSessionCookie w) (calls w) (draws w) (console w) s (sent w).
Definition with_sent (r : value * value) (w : world) : world :=
  mkWorld (node w) (odooSessionCookie w) (calls w) (draws w) (console w)
          (statusCode w) (Some r).

(** Express hands every request a fresh [res]: status 200, nothing sent. *)
Definition fresh_res (w : world) : world :=
  mkWorld (node w) (odooSessionCookie w) (calls w) (draws w) (console w) (VNum 200) None.

(** *** The monad: state that survives a throw *)

Inductive completion (A : Type) : Type :=
| Normal (a : A)
| Thrown (e : js_error).
Arguments Normal {A} a.
Arguments Thrown {A} e.

Definition M (A : Type) : Type := world -> completion A * world.

Definition ret {A} (a : A) : M A := fun w => (Normal a, w).

Definition bind {A B} (m : M A) (k : A -> M B) : M B :=
  fun w =>
    match m w with
    | (Normal a, w') => k a w'
    | (Thrown e, w') => (Thrown e, w')
    end.

Definition throw {A} (e : js_error) : M A := fun w => (Thrown e, w).

(** [try { body } catch (error) { handler }]. *)
Definition try_catch {A} (body : M A) (handler : js_error -> M A) : M A :=
  fun w =>
    match body w with
    | (Normal a, w') => (Normal a, w')
    | (Thrown e, w') => handler e w'
    end.

(** [m] leaves the component [f] of the world as it found it. *)
Definition frame {X A} (f : world -> X) (m : M A) : Prop :=
  forall w, f (snd (m w)) = f w.

Declare Scope js_scope.
Delimit Scope js_scope with js.
Notation "x <- c ;; k" := (bind c (fun x => k))
  (at level 61, c at next level, right associativity) : js_scope.
Notation "c ;; k" := (bind c (fun _ => k))
  (at level 61, right associativity) : js_scope.
Local Open Scope js_scope.

(** *** JavaScript operators with effects *)

(** V8's wording of the TypeError of a property read on [null] or
    [undefined]. *)
Definition TypeError_read (base : value) (k : string) : js_error :=
  mkError ("Cannot read properties of " ++ to_string base
           ++ " (reading '" ++ k ++ "')") None.

(** [v.k]: throws on a nullish [v]. *)
Definition get (v : value) (k : string) : M value :=
  if nullish v then throw (TypeError_read v k) else ret (prop v k).

(** [!e] for an expression [e] that may throw. *)
Definition not_ (e : M value) : M bool :=
  v <- e ;; ret (negb (truthy v)).

(** [a || b] and [a && b] on conditions, evaluating [b] only when needed. *)
Definition orM (a b : M bool) : M bool :=
  x <- a ;; if x then ret true else b.

(** [a || b] and [a && b] on values: the operand that decides is the
    result. *)
Definition or_else (a : value) (b : M value) : M value :=
  if truthy a then ret a else b.
Definition and_then (a : value) (b : M value) : M value :=
  if truthy a then b else ret a.

(** [a === b] where both sides are a string or [undefined] (a header of the
    request, a variable of the environment). *)
Definition strict_eq (a b : option string) : bool :=
  match a, b with
  | Some x, Some y => (x =? y)%string
  | None, None => true
  | _, _ => false
  end.

(** A header or an environment variable as a value. *)
Definition of_option (a : option string) : value :=
  match a with
  | Some s => VStr s
  | None => VUndefined
  end.

(** *** The process, the console and the response object *)

Definition console_ (l : level) (first_argument : string) : M unit :=
  fun w => (Normal tt, with_line (l, first_argument) w).

Definition read_odooSessionCookie : M value :=
  fun w => (Normal (odooSessionCookie w), w).

Definition write_odooSessionCookie (c : value) : M unit :=
  fun w => (Normal tt, with_cookie c w).

(** [res.status(code)]. *)
Definition res_status (code : value) : M unit :=
  fun w => (Normal tt, with_status code w).

(** [code | 0], as Node's [writeHead] computes it from [res.statusCode]. *)
Definition status_int (e : engine) (code : value) : Z :=
  match code with
  | VNum n => int32 n
  | VBool true => 1
  | VBool false | VNull | VUndefined => 0
  | VStr s => text_to_int32 e s
  | VArr _ | VObj _ => text_to_int32 e (to_string code)
  end.

(** The [%s] of Node's error messages. *)
Definition format_s (e : engine) (v : value) : string :=
  match v with
  | VArr _ | VObj _ => inspect e v
  | _ => to_string v
  end.

(** The statuses under which no body goes out: Express empties the body
    for 204, 205 and 304, Node for the informational ones. *)
Definition no_body (n : Z) : bool :=
  (n <? 200) || (n =? 204) || (n =? 205) || (n =? 304).

(** The statuses under which [res.json] sends what it is given. *)
Definition carries_body (n : Z) : bool :=
  (200 <=? n) && (n <=? 999) && negb (no_body n).

(** [res.json(body)]: sends [body] under the current [res.statusCode].
    A second send on the same [res] throws.  Node refuses a status code
    that is not in 100..999 once converted: the send throws a RangeError
    and nothing is sent.  What is recorded is the status on the wire and
    the body written, [undefined] for none. *)
Definition res_json (body : value) : M unit :=
  fun w =>
    match sent w with
    | Some _ =>
        (Thrown (mkError "Cannot set headers after they are sent to the client"
                         None), w)
    | None =>
        let n := status_int (node w) (statusCode w) in
        if (n <? 100) || (999 <? n) then
          (Thrown (mkError ("Invalid status code: "
                            ++ format_s (node w) (statusCode w)) None), w)
        else
          (Normal tt,
           with_sent (VNum n, if no_body n then VUndefined else body) w)
    end.

Section Environment.

(** The upstream server (with the network in front of it) and the outcomes
    of [Math.floor(Math.random() * 1000)], in the order they are drawn. *)
Variable upstream : axios_call -> transport.
Variable rand : nat -> Z.

(** axios's default [validateStatus]. *)
Definition validateStatus (status : Z) : bool :=
  (200 <=? status) && (status <? 300).

(** [await axios.post(url, payload, config)]: the call is made once; a reply
    with a status in 200..299 is the result, any other reply is thrown with
    [error.response] set, and no reply is thrown without it. *)
Definition axios_post (url : string) (payload : value) (config : axios_config)
  : M axios_response :=
  fun w =>
    let c := mkCall url payload config in
    match upstream c with
    | HttpReply r =>
        if validateStatus (resp_status r) then (Normal r, with_call c w)
        else (Thrown (mkError ("Request failed with status code "
                               ++ string_of_Z (resp_status r)) (Some r)),
              with_call c w)
    | NoReply msg => (Thrown (mkError msg None), with_call c w)
    end.

(** [Math.floor(Math.random() * 1000)]. *)
Definition random_id : M value :=
  fun w => (Normal (VNum (rand (draws w))), with_draw w).

End Environment.

End Relay.

(** ** First variant: [src/server.js] *)

Module ServerJs.
Import Js Relay.
Local Open Scope js_scope.

Section App.

(** [process.env.ODOO_URL] and [process.env.API_KEY], read once at start. *)
Variable ODOO_URL : option string.
Variable API_KEY : option string.
Variable upstream : axios_call -> transport.

Definition verifyApiKey (req : request) (next : M unit) : M unit :=
  let clientKey := assoc "x-api-key" (req_headers req) in
  if negb (truthy (of_option clientKey)) || negb (strict_eq clientKey API_KEY)
  then
    console_ Warn "Unauthorized access attempt: Invalid API key" ;;
    res_status (VNum 403) ;;
    res_json (VObj [("error", VStr "Unauthorized: Invalid API key")])
  else next.

(** [req.body.odooConfig] and [req.body.odooConfig.k]. *)
Definition body_odooConfig (req : request) : M value :=
  get (req_body req) "odooConfig".
Definition body_odooConfig_ (req : request) (k : string) : M value :=
  c <- body_odooConfig req ;; get c k.

(** The envelope of the login call. *)
Definition authPayload (db username password : value) : value :=
  VObj [("jsonrpc", VStr "2.0");
        ("method", VStr "call");
        ("params", VObj [("db", db); ("login", username);
                         ("password", password)]);
        ("id", VNum 1)].

(** [setCookieHeader.map(cookie => cookie.split(';')[0]).join('; ')]. *)
Definition cookie_pairs (setCookieHeader : list string) : string :=
  join "; " (map (fun cookie => first (split ";" cookie)) setCookieHeader).

Definition login_catch (error : js_error) : M unit :=
  console_ Error "Login endpoint error:" ;;
  match err_response error with
  | Some response =>
      console_ Error "Login endpoint Odoo Error Response Data:" ;;
      res_status (VNum (resp_status response)) ;;
      e <- get (resp_data response) "error" ;;
      detail <- or_else e (ret (VStr "Odoo login API error")) ;;
      res_json (VObj [("error", detail)])
  | None =>
      res_status (VNum 500) ;;
      detail <- or_else (VStr (err_message error))
                  (ret (VStr "Internal Server Error during Odoo login API call")) ;;
      res_json (VObj [("error", detail)])
  end.

(** The rest of the [try] block of the login handler, from the point where
    [await axios.post(...)] has returned [odooResponse]. *)
Definition login_reply (odooResponse : axios_response) : M unit :=
  match resp_set_cookie odooResponse with
  | Some setCookieHeader =>
      write_odooSessionCookie (VStr (cookie_pairs setCookieHeader)) ;;
      console_ Log "Odoo Session Cookie Captured:"
  | None =>
      console_ Warn "No Odoo session cookie received in login response."
  end ;;
  console_ Log "--- Odoo Proxy Response DEBUG (web/session/authenticate) ---" ;;
  console_ Log "Odoo Response Status:" ;;
  console_ Log "Odoo Response Data:" ;;
  result <- get (resp_data odooResponse) "result" ;;
  uid <- and_then result (get result "uid") ;;
  if truthy uid then
    result <- get (resp_data odooResponse) "result" ;;
    uid <- get result "uid" ;;
    res_json (VObj [("result", uid)])
  else
    error <- get (resp_data odooResponse) "error" ;;
    if truthy error then
      console_ Error "Odoo authentication error:" ;;
      res_status (VNum 401) ;;
      message <- get error "message" ;;
      detail <- or_else message (ret (VStr "Odoo authentication failed")) ;;
      res_json (VObj [("error", detail)])
    else
      res_status (VNum 500) ;;
      res_json (VObj [("error", VStr "Unexpected Odoo login response")]).

(** [app.post('/api/login', verifyApiKey, async (req, res) => ...)], the
    handler. *)
Definition api_login (req : request) : M unit :=
  try_catch
    (missing <- orM (not_ (body_odooConfig req))
                 (orM (not_ (body_odooConfig_ req "db"))
                 (orM (not_ (body_odooConfig_ req "username"))
                 (orM (not_ (body_odooConfig_ req "password"))
                      (not_ (body_odooConfig_ req "url"))))) ;;
     if missing then
       console_ Error "Missing Odoo configuration in login request body." ;;
       res_status (VNum 400) ;;
       res_json (VObj [("error",
         VStr "Missing Odoo configuration (url, db, username, password)")])
     else
       odooConfig <- body_odooConfig req ;;
       url <- get odooConfig "url" ;;
       db <- get odooConfig "db" ;;
       username <- get odooConfig "username" ;;
       password <- get odooConfig "password" ;;
       console_ Log "--- Odoo Proxy Request DEBUG (web/session/authenticate) ---" ;;
       console_ Log "Target Odoo URL:" ;;
       console_ Log "Auth Payload:" ;;
       odooResponse <-
         axios_post upstream (to_string url ++ "/web/session/authenticate")
           (authPayload db username password)
           (mkConfig [("Content-Type", VStr "application/json")] true 10000) ;;
       login_reply odooResponse)
    login_catch.

(** The envelope of a forwarded call. *)
Definition callKwPayload (model method args kwargs : value) : value :=
  VObj [("jsonrpc", VStr "2.0");
        ("method", VStr "call");
        ("params", VObj [("model", model); ("method", method);
                         ("args", args); ("kwargs", kwargs)]);
        ("id", VNum 1)].

Definition odoo_catch (error : js_error) : M unit :=
  console_ Error "Odoo API endpoint error:" ;;
  match err_response error with
  | Some response =>
      console_ Error "Odoo API endpoint Odoo Error Response Data:" ;;
      res_status (VNum (resp_status response)) ;;
      e <- get (resp_data response) "error" ;;
      detail <- or_else e (ret (VStr "Odoo API error")) ;;
      res_json (VObj [("error", detail)])
  | None =>
      res_status (VNum 500) ;;
      detail <- or_else (VStr (err_message error))
                  (ret (VStr "Internal Server Error during Odoo API call")) ;;
      res_json (VObj [("error", detail)])
  end.

(** The rest of the [try] block of the forwarding handler, from the point
    where [await axios.post(...)] has returned [odooResponse]. *)
Definition odoo_reply (odooResponse : axios_response) : M unit :=
  console_ Log "--- Odoo Proxy Response DEBUG (web/dataset/call_kw) ---" ;;
  console_ Log "Odoo Response Status:" ;;
  console_ Log "Odoo Response Data:" ;;
  res_json (resp_data odooResponse).

(** [app.post('/api/odoo', verifyApiKey, async (req, res) => ...)], the
    handler. *)
Definition api_odoo (req : request) : M unit :=
  try_catch
    (cookie <- read_odooSessionCookie ;;
     if negb (truthy cookie) then
       console_ Warn "No Odoo session cookie available. Client needs to log in first." ;;
       res_status (VNum 401) ;;
       res_json (VObj [("error",
         VStr "Unauthorized: No active Odoo session. Please log in.")])
     else
       missing <- orM (not_ (body_odooConfig req))
                      (not_ (body_odooConfig_ req "url")) ;;
       if missing then
         console_ Error "Missing Odoo URL in Odoo call request body." ;;
         res_status (VNum 400) ;;
         res_json (VObj [("error", VStr "Missing Odoo URL in request body")])
       else
         model <- get (req_body req) "model" ;;
         method <- get (req_body req) "method" ;;
         args <- get (req_body req) "args" ;;
         kwargs <- get (req_body req) "kwargs" ;;
         odooUrl <- body_odooConfig_ req "url" ;;
         console_ Log "--- Odoo Proxy Request DEBUG (web/dataset/call_kw) ---" ;;
         console_ Log "Target Odoo URL:" ;;
         console_ Log "Call_kw Payload:" ;;
         console_ Log "Using Odoo Session Cookie:" ;;
         cookie <- read_odooSessionCookie ;;
         odooResponse <-
           axios_post upstream (to_string odooUrl ++ "/web/dataset/call_kw")
             (callKwPayload model method args kwargs)
             (mkConfig [("Content-Type", VStr "application/json");
                        ("Cookie", cookie)] true 10000) ;;
         odoo_reply odooResponse)
    odoo_catch.

End App.

(** The CORS policy, [app.use(cors({ origin: function (origin, callback)
    ... }))]: what the [origin] function passes to its [callback], as the
    pair of the error's message (if an error is passed) and the flag. *)
Definition allowedOrigins : list string := ["https://imitrr.github.io"].

Definition cors_origin (origin : option string) : option string * bool :=
  if negb (truthy (of_option origin)) then (None, true)
  else if indexOf (to_string (of_option origin)) allowedOrigins =? -1 then
    (Some "The CORS policy for this site does not allow access from the specified Origin.",
     false)
  else (None, true).

End ServerJs.

(** ** Second variant: [src/unnamed/part_000] *)

Module Part000.
Import Js Relay.
Local Open Scope js_scope.

Section App.

Variable ODOO_URL : option string.
Variable API_KEY : option string.
Variable upstream : axios_call -> transport.
Variable rand : nat -> Z.

Definition verifyApiKey (req : request) (next : M unit) : M unit :=
  let clientKey := assoc "x-api-key" (req_headers req) in
  if negb (truthy (of_option clientKey)) || negb (strict_eq clientKey API_KEY)
  then
    console_ Warn "Unauthorized access attempt: Invalid API key" ;;
    res_status (VNum 403) ;;
    res_json (VObj [("error", VStr "Unauthorized: Invalid API key")])
  else next.

Definition body_odooConfig (req : request) : M value :=
  get (req_body req) "odooConfig".
Definition body_odooConfig_ (req : request) (k : string) : M value :=
  c <- body_odooConfig req ;; get c k.

(** [req.body.id || Math.floor(Math.random() * 1000)]. *)
Definition correlation_id (req : request) : M value :=
  id <- get (req_body req) "id" ;;
  or_else id (random_id rand).

(** The envelope of the login call, around an [id] already computed. *)
Definition login_envelope (db username password id : value) : value :=
  VObj [("jsonrpc", VStr "2.0");
        ("method", VStr "call");
        ("params", VObj [("db", db); ("login", username);
                         ("password", password)]);
        ("id", id)].

Definition login_catch (error : js_error) : M unit :=
  console_ Error "Login endpoint error:" ;;
  match err_response error with
  | Some response =>
      console_ Error "Login endpoint Odoo Error Response Data:" ;;
      res_status (VNum (resp_status response)) ;;
      e <- get (resp_data response) "error" ;;
      detail <- or_else e (ret (VStr "Odoo login error")) ;;
      res_json (VObj [("error", detail)])
  | None =>
      res_status (VNum 500) ;;
      detail <- or_else (VStr (err_message error))
                  (ret (VStr "Internal Server Error during login")) ;;
      res_json (VObj [("error", detail)])
  end.

(** The rest of the [try] block of the login handler, from the point where
    [await axios.post(...)] has returned [response]. *)
Definition login_reply (response : axios_response) : M unit :=
  console_ Log "--- Odoo Login Response DEBUG (web/session/authenticate) ---" ;;
  console_ Log "Odoo Response Status:" ;;
  console_ Log "Odoo Response Data:" ;;
  match resp_set_cookie response with
  | Some setCookieHeader =>
      write_odooSessionCookie (VArr (map VStr setCookieHeader)) ;;
      console_ Log "Captured Odoo Session Cookie:"
  | None =>
      console_ Warn "No Set-Cookie header found in Odoo login response."
  end ;;
  uid <- and_then (resp_data response)
           (result <- get (resp_data response) "result" ;;
            and_then result (get result "uid")) ;;
  if truthy uid then
    result <- get (resp_data response) "result" ;;
    uid <- get result "uid" ;;
    res_json (VObj [("result", uid)])
  else
    error <- and_then (resp_data response)
               (get (resp_data response) "error") ;;
    message <- and_then error (get error "message") ;;
    errorMsg <- or_else message (ret (VStr "Authentication failed")) ;;
    console_ Error "Odoo login failed:" ;;
    error_response <- get error "response" ;;
    code <- (if truthy error_response
             then get error_response "status"
             else ret (VNum 500)) ;;
    res_status code ;;
    res_json (VObj [("error", VStr "Authentication failed");
                    ("details", errorMsg)]).

(** [app.post('/api/login', verifyApiKey, async (req, res) => ...)], the
    handler.  The payload is built twice, once for the console and once for
    the call, and each time draws its own random id when the request has
    none. *)
Definition api_login (req : request) : M unit :=
  try_catch
    (missing <- orM (not_ (body_odooConfig req))
                 (orM (not_ (body_odooConfig_ req "db"))
                 (orM (not_ (body_odooConfig_ req "username"))
                      (not_ (body_odooConfig_ req "password")))) ;;
     if missing then
       console_ Error "Login error: Missing required fields in odooConfig" ;;
       res_status (VNum 400) ;;
       res_json (VObj [("error", VStr "Missing required fields for Odoo login")])
     else
       odooConfig <- body_odooConfig req ;;
       db <- get odooConfig "db" ;;
       username <- get odooConfig "username" ;;
       password <- get odooConfig "password" ;;
       console_ Log "--- Odoo Login Request DEBUG (web/session/authenticate) ---" ;;
       console_ Log "Target Odoo URL:" ;;
       logged_id <- correlation_id req ;;
       console_ Log "Request Payload (excluding password):" ;;
       id <- correlation_id req ;;
       response <-
         axios_post upstream
           (to_string (of_option ODOO_URL) ++ "/web/session/authenticate")
           (login_envelope db username password id)
           (mkConfig [("Content-Type", VStr "application/json")] false 10000) ;;
       login_reply response)
    login_catch.

(** V8's wording of the TypeError of destructuring [null] or [undefined]. *)
Definition TypeError_destructure (base : value) (k source : string) : js_error :=
  mkError ("Cannot destructure property '" ++ k ++ "' of '" ++ source
           ++ "' as it is " ++ to_string base ++ ".") None.

(** [const { odooConfig, ... } = req.body]. *)
Definition destructure_body (req : request) : M unit :=
  if nullish (req_body req)
  then throw (TypeError_destructure (req_body req) "odooConfig" "req.body")
  else ret tt.

(** The envelope of a forwarded call, around an [id] already computed. *)
Definition odooPayload (model method args kwargs id : value) : value :=
  VObj [("jsonrpc", VStr "2.0");
        ("method", VStr "call");
        ("params", VObj [("model", model); ("method", method);
                         ("args", args); ("kwargs", kwargs)]);
        ("id", id)].

Definition odoo_catch (error : js_error) : M unit :=
  console_ Error "Odoo API endpoint error:" ;;
  match err_response error with
  | Some response =>
      console_ Error "Odoo API endpoint Odoo Error Response Data:" ;;
      res_status (VNum (resp_status response)) ;;
      e <- get (resp_data response) "error" ;;
      detail <- or_else e (ret (VStr "Odoo API error")) ;;
      res_json (VObj [("error", detail)])
  | None =>
      res_status (VNum 500) ;;
      detail <- or_else (VStr (err_message error))
                  (ret (VStr "Internal Server Error during Odoo API call")) ;;
      res_json (VObj [("error", detail)])
  end.

(** The rest of the [try] block of the forwarding handler, from the point
    where [await axios.post(...)] has returned [odooResponse]. *)
Definition odoo_reply (odooResponse : axios_response) : M unit :=
  console_ Log "--- Odoo Proxy Response DEBUG (web/dataset/call_kw) ---" ;;
  console_ Log "Odoo Response Status:" ;;
  console_ Log "Odoo Response Data:" ;;
  res_json (resp_data odooResponse).

(** [app.post('/api/odoo', verifyApiKey, async (req, res) => ...)], the
    handler. *)
Definition api_odoo (req : request) : M unit :=
  try_catch
    (destructure_body req ;;
     let model := prop (req_body req) "model" in
     let method := prop (req_body req) "method" in
     let args := prop (req_body req) "args" in
     let kwargs := prop (req_body req) "kwargs" in
     let uid := prop (req_body req) "uid" in
     if negb (truthy (of_option ODOO_URL)) then
       console_ Error "ODOO_URL environment variable is not set in Glitch .env" ;;
       res_status (VNum 500) ;;
       res_json (VObj [("error",
         VStr "Server configuration error: Odoo URL not set.")])
     else if negb (truthy uid) then
       console_ Error "Odoo API call error: User ID (UID) is missing." ;;
       res_status (VNum 400) ;;
       res_json (VObj [("error",
         VStr "User ID (UID) is required for Odoo API calls.")])
     else
       id <- correlation_id req ;;
       console_ Log "--- Odoo Proxy Request DEBUG (web/dataset/call_kw) ---" ;;
       console_ Log "Target Odoo URL:" ;;
       console_ Log "Request Payload:" ;;
       cookie <- read_odooSessionCookie ;;
       odooHeaders <-
         (if truthy cookie then
            console_ Log "Sending Odoo Session Cookie with call_kw:" ;;
            ret [("Content-Type", VStr "application/json"); ("Cookie", cookie)]
          else
            console_ Warn "No Odoo session cookie available for call_kw request. Session might be expired or not established." ;;
            ret [("Content-Type", VStr "application/json")]) ;;
       odooResponse <-
         axios_post upstream
           (to_string (of_option ODOO_URL) ++ "/web/dataset/call_kw")
           (odooPayload model method args kwargs id)
           (mkConfig odooHeaders false 10000) ;;
       odoo_reply odooResponse)
    odoo_catch.

End App.

End Part000.

(** ** The application: both variants behind one interface *)

Module App.
Import Js Relay.

Inductive variant : Type := server_js | part_000.

(** The two routes registered with [app.post]. *)
Inductive route : Type := api_login | api_odoo.

(** Where a deployment runs: its environment, its upstream, its random
    source. *)
Record host := mkHost {
  ODOO_URL : option string;
  API_KEY : option string;
  upstream : axios_call -> transport;
  rand : nat -> Z
}.

(** The handler registered for a route. *)
Definition handler (v : variant) (h : host) (rt : route) (req : request)
  : M unit :=
  match v, rt with
  | server_js, api_login => ServerJs.api_login (upstream h) req
  | server_js, api_odoo => ServerJs.api_odoo (upstream h) req
  | part_000, api_login =>
      Part000.api_login (ODOO_URL h) (upstream h) (rand h) req
  | part_000, api_odoo =>
      Part000.api_odoo (ODOO_URL h) (upstream h) (rand h) req
  end.

(** [app.post(path, verifyApiKey, handler)]. *)
Definition app_post (v : variant) (h : host) (rt : route) (req : request)
  : M unit :=
  match v with
  | server_js => ServerJs.verifyApiKey (API_KEY h) req (handler v h rt req)
  | part_000 => Part000.verifyApiKey (API_KEY h) req (handler v h rt req)
  end.

(** Serving one request in a process whose state is [w]: the chain runs on
    a fresh [res].  The result is how the handler completed and the world it
    left.  An exception that leaves an [async] handler rejects the promise
    the handler returned.  The repository pins no version of Express; the
    model follows Express 4, whose dispatch does not look at that promise:
    nothing catches the exception and no response is sent on its behalf. *)
Definition serve (v : variant) (h : host) (rt : route) (req : request)
  (w : world) : completion unit * world :=
  app_post v h rt req (fresh_res w).

(** What the caller is sent, the session the process holds afterwards, and
    the outbound calls made while serving. *)
Definition response (out : completion unit * world) : option (value * value) :=
  sent (snd out).
Definition session (out : completion unit * world) : value :=
  odooSessionCookie (snd out).
Definition outbound (out : completion unit * world) : list axios_call :=
  calls (snd out).

(** The caller's declared key, [req.headers['x-api-key']]. *)
Definition clientKey (req : request) : option string :=
  assoc "x-api-key" (req_headers req).

(** The request presents the configured secret (and the secret is one that
    can be presented: a non-empty string). *)
Definition valid_key (h : host) (req : request) : Prop :=
  exists k, clientKey req = Some k /\ k <> EmptyString /\ API_KEY h = Some k.

(** The configuration fields each variant's login handler insists on. *)
Definition required_fields (v : variant) : list string :=
  match v with
  | server_js => ["db"; "username"; "password"; "url"]
  | part_000 => ["db"; "username"; "password"]
  end.

Definition odooConfig_of (req : request) : value :=
  prop (req_body req) "odooConfig".

(** Every required field of [req.body.odooConfig] is there (truthy). *)
Definition fields_present (v : variant) (req : request) : bool :=
  truthy (odooConfig_of req)
  && forallb (fun k => truthy (prop (odooConfig_of req) k)) (required_fields v).

(** *** Vocabulary of the properties *)

(** The answer of the access guard. *)
Definition forbidden : value * value :=
  (VNum 403, VObj [("error", VStr "Unauthorized: Invalid API key")]).

(** The answer of each login handler to a request that lacks a field. *)
Definition missing_fields (v : variant) : value * value :=
  (VNum 400,
   VObj [("error",
          VStr match v with
               | server_js =>
                   "Missing Odoo configuration (url, db, username, password)"
               | part_000 => "Missing required fields for Odoo login"
               end)]).

(** The answer of the first variant to a forwarded call without a session. *)
Definition no_active_session : value * value :=
  (VNum 401,
   VObj [("error",
          VStr "Unauthorized: No active Odoo session. Please log in.")]).

(** The detail each [catch] block falls back on when the upstream's error
    reply names none. *)
Definition default_detail (v : variant) (r : route) : string :=
  match v, r with
  | server_js, api_login => "Odoo login API error"
  | part_000, api_login => "Odoo login error"
  | _, api_odoo => "Odoo API error"
  end.

(** The detail each [catch] block falls back on when the error has no
    message. *)
Definition internal_error (v : variant) (r : route) : string :=
  match v, r with
  | server_js, api_login => "Internal Server Error during Odoo login API call"
  | part_000, api_login => "Internal Server Error during login"
  | _, api_odoo => "Internal Server Error during Odoo API call"
  end.

(** [a || b] on values, without effects. *)
Definition value_or (a b : value) : value := if truthy a then a else b.

(** The user identifier a login reply carries, [data.result.uid]. *)
Definition uid_of (r : axios_response) : value :=
  prop (prop (resp_data r) "result") "uid".

(** The specification's normalization of a Set-Cookie header, in its own
    words: each cookie truncated at its first [;], the pairs joined. *)
Fixpoint truncate_at_semicolon (s : string) : string :=
  match s with
  | EmptyString => EmptyString
  | String a rest =>
      if Ascii.eqb a ";" then EmptyString
      else String a (truncate_at_semicolon rest)
  end.

Definition normalization (header : list string) : string :=
  String.concat "; " (map truncate_at_semicolon header).

(** What each variant stores for a Set-Cookie header. *)
Definition captured (v : variant) (header : list string) : value :=
  match v with
  | server_js => VStr (normalization header)
  | part_000 => VArr (map VStr header)
  end.

(** The two halves of each handler around its [await]: what it does with
    the reply, and its [catch] block. *)
Definition on_reply (v : variant) (rt : route) : axios_response -> M unit :=
  match v, rt with
  | server_js, api_login => ServerJs.login_reply
  | server_js, api_odoo => ServerJs.odoo_reply
  | part_000, api_login => Part000.login_reply
  | part_000, api_odoo => Part000.odoo_reply
  end.

Definition on_error (v : variant) (rt : route) : js_error -> M unit :=
  match v, rt with
  | server_js, api_login => ServerJs.login_catch
  | server_js, api_odoo => ServerJs.odoo_catch
  | part_000, api_login => Part000.login_catch
  | part_000, api_odoo => Part000.odoo_catch
  end.

(** How a handler that has issued the call [c] in the world [w] goes on,
    given what the network did with the call. *)
Definition settle (v : variant) (rt : route) (t : transport) (c : axios_call)
  (w : world) : completion unit * world :=
  match t with
  | HttpReply r =>
      if validateStatus (resp_status r)
      then try_catch (on_reply v rt r) (on_error v rt) (with_call c w)
      else on_error v rt
             (mkError ("Request failed with status code "
                       ++ string_of_Z (resp_status r)) (Some r))
             (with_call c w)
  | NoReply msg => on_error v rt (mkError msg None) (with_call c w)
  end.

Definition json_headers : list (string * value) :=
  [("Content-Type", VStr "application/json")].

(** The call a login request with its fields present leads to.  In the
    second variant the id of a request without one is the second draw: the
    first went into the payload printed on the console. *)
Definition login_call (v : variant) (h : host) (req : request) (w : world)
  : axios_call :=
  let cfg := prop (odooConfig_of req) in
  match v with
  | server_js =>
      mkCall (to_string (cfg "url") ++ "/web/session/authenticate")
        (ServerJs.authPayload (cfg "db") (cfg "username") (cfg "password"))
        (mkConfig json_headers true 10000)
  | part_000 =>
      mkCall (to_string (of_option (ODOO_URL h)) ++ "/web/session/authenticate")
        (Part000.login_envelope (cfg "db") (cfg "username") (cfg "password")
           (value_or (prop (req_body req) "id")
                     (VNum (rand h (S (draws w))))))
        (mkConfig json_headers false 10000)
  end.

(** The call a forwarded request leads to, once it is let through. *)
Definition odoo_call (v : variant) (h : host) (req : request) (w : world)
  : axios_call :=
  let body := prop (req_body req) in
  match v with
  | server_js =>
      mkCall (to_string (prop (odooConfig_of req) "url") ++ "/web/dataset/call_kw")
        (ServerJs.callKwPayload (body "model") (body "method") (body "args")
           (body "kwargs"))
        (mkConfig [("Content-Type", VStr "application/json");
                   ("Cookie", odooSessionCookie w)] true 10000)
  | part_000 =>
      mkCall (to_string (of_option (ODOO_URL h)) ++ "/web/dataset/call_kw")
        (Part000.odooPayload (body "model") (body "method") (body "args")
           (body "kwargs")
           (value_or (body "id") (VNum (rand h (draws w)))))
        (mkConfig (if truthy (odooSessionCookie w)
                   then [("Content-Type", VStr "application/json");
                         ("Cookie", odooSessionCookie w)]
                   else json_headers) false 10000)
  end.

(** The input contract of a forwarded call in the second variant: the
    upstream address is configured and the caller names a user id. *)
Definition forward_contract (h : host) (req : request) : Prop :=
  truthy (of_option (ODOO_URL h)) = true /\
  truthy (prop (req_body req) "uid") = true.

(** The world in which a handler waits for the reply differs from the one
    it started in by console lines and random draws only. *)
Definition waiting (w w1 : world) : Prop :=
  calls w1 = calls w /\
  odooSessionCookie w1 = odooSessionCookie w /\
  sent w1 = None /\
  statusCode w1 = VNum 200.

(** What lets a forwarded call through to the upstream. *)
Definition let_through (v : variant) (h : host) (req : request) (w : world)
  : Prop :=
  match v with
  | server_js =>
      truthy (odooSessionCookie w) = true /\
      truthy (prop (odooConfig_of req) "url") = true
  | part_000 => forward_contract h req
  end.

(** *** Scenarios *)

(** Concrete deployments, requests and replies. *)
Definition secret : string := "s3cret".

Definition with_key (key : string) (body : value) : request :=
  mkRequest [("content-type", "application/json"); ("x-api-key", key)] body.

Definition without_key (body : value) : request :=
  mkRequest [("content-type", "application/json")] body.

Definition full_config : value :=
  VObj [("url", VStr "https://odoo.example"); ("db", VStr "prod");
        ("username", VStr "admin"); ("password", VStr "hunter2")].

Definition config_without_url : value :=
  VObj [("db", VStr "prod"); ("username", VStr "admin");
        ("password", VStr "hunter2")].

Definition config_without_password : value :=
  VObj [("url", VStr "https://odoo.example"); ("db", VStr "prod");
        ("username", VStr "admin")].

Definition login_body (config : value) : value :=
  VObj [("odooConfig", config)].


Definition search_read : value :=
  VObj [("odooConfig", VObj [("url", VStr "https://odoo.example")]);
        ("model", VStr "product.template"); ("method", VStr "search_read");
        ("args", VArr [VArr []]);
        ("kwargs", VObj [("limit", VNum 5)]);
        ("uid", VNum 7)].

Definition always (t : transport) : axios_call -> transport := fun _ => t.

Definition host_with (key : option string) (t : transport) : host :=
  mkHost (Some "https://odoo.example") key (always t)
         (fun n => 100 + Z.of_nat n).

Definition host_of (t : transport) : host := host_with (Some secret) t.

(** An engine for the scenarios, none of which reads a number out of a
    text or renders an object. *)
Definition plain_engine : engine :=
  mkEngine (fun _ => 0) (fun _ => "[object Object]").

(** A process that has served nothing yet, and one that holds a session. *)
Definition idle : world := mkWorld plain_engine VNull [] 0 [] (VNum 200) None.

Definition logged_in : world :=
  mkWorld plain_engine (VStr "session_id=old") [] 0 [] (VNum 200) None.

Definition session_cookie : string :=
  "session_id=abc123; Expires=Mon, 01 Feb 2027 00:00:00 GMT; Path=/; HttpOnly".

Definition welcome : axios_response :=
  mkResponse 200 (Some [session_cookie])
    (VObj [("jsonrpc", VStr "2.0"); ("id", VNum 1);
           ("result", VObj [("uid", VNum 7); ("db", VStr "prod")])]).

Definition access_denied : axios_response :=
  mkResponse 200 (Some [session_cookie])
    (VObj [("jsonrpc", VStr "2.0"); ("id", VNum 1);
           ("error", VObj [("code", VNum 200);
                           ("message", VStr "Access Denied")])]).

Definition records : axios_response :=
  mkResponse 200 None
    (VObj [("jsonrpc", VStr "2.0"); ("id", VNum 1);
           ("result", VArr [VObj [("id", VNum 1); ("name", VStr "Desk")]])]).

Definition session_expired : axios_response :=
  mkResponse 200 None
    (VObj [("jsonrpc", VStr "2.0"); ("id", VNum 1);
           ("error", VObj [("code", VNum 100);
                           ("message", VStr "Odoo Session Expired")])]).

(** An error reply whose body is the JSON text [null]. *)
Definition bad_gateway : axios_response := mkResponse 502 None VNull.

(** *** Further vocabulary and scenarios *)

(** The character [c] occurs in [s]. *)
Fixpoint occurs (c : ascii) (s : string) : bool :=
  match s with
  | EmptyString => false
  | String a rest => Ascii.eqb a c || occurs c rest
  end.

(** A cookie and the pair kept of it: the pair has no semicolon and is the
    whole cookie or what precedes a semicolon of it. *)
Definition pair_of (cookie pair : string) : Prop :=
  occurs ";" pair = false /\
  (cookie = pair \/ exists rest, cookie = pair ++ String ";" rest).

(** The target address of a login: from the request in the first variant,
    from the environment in the second. *)
Definition target (v : variant) (h : host) (req : request) : value :=
  match v with
  | server_js => prop (odooConfig_of req) "url"
  | part_000 => of_option (ODOO_URL h)
  end.

(** The value of [response.data && response.data.error]. *)
Definition error_of (r : axios_response) : value :=
  if truthy (resp_data r) then prop (resp_data r) "error" else resp_data r.

Definition host_without_url (t : transport) : host :=
  mkHost None (Some secret) (always t) (fun n => 100 + Z.of_nat n).

Definition search_read_without_url : value :=
  VObj [("model", VStr "product.template"); ("method", VStr "search_read");
        ("args", VArr [VArr []]);
        ("kwargs", VObj [("limit", VNum 5)]);
        ("uid", VNum 7)].

Definition search_read_without_uid : value :=
  VObj [("odooConfig", VObj [("url", VStr "https://odoo.example")]);
        ("model", VStr "product.template"); ("method", VStr "search_read");
        ("args", VArr [VArr []]);
        ("kwargs", VObj [("limit", VNum 5)])].

(** A reply that is neither a login nor an error envelope. *)
Definition empty_envelope : axios_response :=
  mkResponse 200 None (VObj [("jsonrpc", VStr "2.0"); ("id", VNum 1)]).

(** A rejection whose body is the JSON text [null]. *)
Definition unauthorized_null : axios_response := mkResponse 401 None VNull.

Definition search_read_with_id : value :=
  VObj [("model", VStr "product.template"); ("method", VStr "search_read");
        ("args", VArr [VArr []]);
        ("kwargs", VObj [("limit", VNum 5)]);
        ("uid", VNum 7); ("id", VNum 9)].

(** A reply with the status 304 and a body. *)
Definition not_modified : axios_response :=
  mkResponse 304 None (VObj [("error", VStr "stale")]).

(** An error reply with a body. *)
Definition not_found : axios_response :=
  mkResponse 404 None (VObj [("error", VStr "no such database")]).

End App.

Import Js Relay App.
Local Open Scope list_scope.

(** ** Properties *)

(** *** JavaScript values *)

Lemma strict_eq_spec a b : strict_eq a b = true <-> a = b.
Proof.
  destruct a as [x|], b as [y|]; simpl; split; intro H;
    try discriminate; try reflexivity.
  - apply String.eqb_eq in H. now subst.
  - injection H as ->. apply String.eqb_refl.
Qed.

Lemma truthy_VStr s : truthy (VStr s) = true <-> s <> EmptyString.
Proof.
  simpl. rewrite negb_true_iff. split.
  - intros H ->. now rewrite String.eqb_refl in H.
  - intro H. now apply String.eqb_neq.
Qed.

Lemma truthy_nullish v : truthy v = true -> nullish v = false.
Proof. now destruct v. Qed.

Lemma truthy_prop_nullish v k : truthy (prop v k) = true -> nullish v = false.
Proof. now destruct v. Qed.

(** Only an object has a truthy property. *)
Lemma truthy_prop_inv v k :
  truthy (prop v k) = true ->
  exists fs x, v = VObj fs /\ assoc k fs = Some x /\ truthy x = true.
Proof.
  destruct v; simpl; try discriminate.
  destruct (assoc k fields) as [x|] eqn:E; simpl; [|discriminate].
  intro H. now exists fields, x.
Qed.

(** [cookie.split(';')[0]] is the cookie cut at its first semicolon. *)
Lemma first_split_truncates s :
  first (split ";" s) = truncate_at_semicolon s.
Proof.
  unfold first. induction s as [|a rest IH]; [reflexivity|].
  simpl. destruct (Ascii.eqb a ";"); [reflexivity|].
  destruct (split ";" rest) as [|piece pieces]; simpl in *; now rewrite <- IH.
Qed.

(** The first variant's cookie surgery computes the normalization. *)
Lemma cookie_pairs_normalizes header :
  ServerJs.cookie_pairs header = normalization header.
Proof.
  unfold ServerJs.cookie_pairs, normalization, join. f_equal.
  apply map_ext. intro s. apply first_split_truncates.
Qed.

(** *** The access guard *)

(** The guard lets through exactly the keys that are present, non-empty and
    equal to the secret. *)
Lemma guard_condition key secret :
  negb (truthy (of_option key)) || negb (strict_eq key secret) = false
  <-> exists k, key = Some k /\ k <> EmptyString /\ secret = Some k.
Proof.
  rewrite orb_false_iff, !negb_false_iff, strict_eq_spec. split.
  - intros [Ht <-]. destruct key as [k|]; [|discriminate].
    exists k. apply truthy_VStr in Ht. auto.
  - intros (k & -> & Hk & ->). split; [now apply truthy_VStr | reflexivity].
Qed.

Lemma serve_rejected v h rt req w :
  negb (truthy (of_option (clientKey req)))
  || negb (strict_eq (clientKey req) (API_KEY h)) = true ->
  serve v h rt req w =
  (Normal tt,
   mkWorld (node w) (odooSessionCookie w) (calls w) (draws w)
     (console w ++ [(Warn, "Unauthorized access attempt: Invalid API key"%string)])
     (VNum 403) (Some forbidden)).
Proof.
  intro H. unfold serve, app_post, clientKey in *.
  destruct v; unfold ServerJs.verifyApiKey, Part000.verifyApiKey;
    rewrite H; reflexivity.
Qed.

Lemma serve_accepted v h rt req w :
  valid_key h req ->
  serve v h rt req w = handler v h rt req (fresh_res w).
Proof.
  intro H. apply guard_condition in H. unfold serve, app_post, clientKey in *.
  destruct v; unfold ServerJs.verifyApiKey, Part000.verifyApiKey;
    rewrite H; reflexivity.
Qed.

(** *** Frames: what each piece of a handler leaves alone *)

Section Frames.
Context {X : Type} (f : world -> X).

Lemma frame_ret {A} (a : A) : frame f (ret a).
Proof. now intro. Qed.

Lemma frame_throw {A} e : frame f (@throw A e).
Proof. now intro. Qed.

Lemma frame_bind {A B} (m : M A) (k : A -> M B) :
  frame f m -> (forall a, frame f (k a)) -> frame f (bind m k).
Proof.
  intros Hm Hk w. unfold bind. specialize (Hm w).
  destruct (m w) as [[a|e] w']; simpl in *; [rewrite Hk|]; assumption.
Qed.

Lemma frame_try_catch {A} (m : M A) (hd : js_error -> M A) :
  frame f m -> (forall e, frame f (hd e)) -> frame f (try_catch m hd).
Proof.
  intros Hm Hk w. unfold try_catch. specialize (Hm w).
  destruct (m w) as [[a|e] w']; simpl in *; [|rewrite Hk]; assumption.
Qed.

Lemma frame_get v k : frame f (get v k).
Proof. intro w. unfold get. now destruct (nullish v). Qed.

Lemma frame_read : frame f read_odooSessionCookie.
Proof. now intro. Qed.

Lemma frame_console (Hf : forall l w, f (with_line l w) = f w) l s :
  frame f (console_ l s).
Proof. intro w. apply Hf. Qed.

Lemma frame_res_status (Hf : forall c w, f (with_status c w) = f w) c :
  frame f (res_status c).
Proof. intro w. apply Hf. Qed.

Lemma frame_res_json (Hf : forall r w, f (with_sent r w) = f w) b :
  frame f (res_json b).
Proof.
  intro w. unfold res_json. destruct (sent w); [reflexivity|].
  cbv zeta. destruct (_ || _); [reflexivity|apply Hf].
Qed.

Lemma frame_write (Hf : forall c w, f (with_cookie c w) = f w) c :
  frame f (write_odooSessionCookie c).
Proof. intro w. apply Hf. Qed.

Lemma frame_random (Hf : forall w, f (with_draw w) = f w) rand :
  frame f (random_id rand).
Proof. intro w. apply Hf. Qed.

(** A component that the continuation leaves alone is decided by the first
    computation; one that the [catch] block leaves alone, by the [try]
    block. *)
Lemma frame_after {A B} (m : M A) (k : A -> M B) w :
  (forall a, frame f (k a)) -> f (snd (bind m k w)) = f (snd (m w)).
Proof.
  intro H. unfold bind.
  destruct (m w) as [[a|e] w']; simpl; [apply H|reflexivity].
Qed.

Lemma frame_caught {A} (m : M A) hd w :
  (forall e, frame f (hd e)) -> f (snd (try_catch m hd w)) = f (snd (m w)).
Proof.
  intro H. unfold try_catch.
  destruct (m w) as [[a|e] w']; simpl; [reflexivity|apply H].
Qed.

End Frames.

(** Frames follow the syntax of the computation. *)
Ltac frames :=
  repeat (intros;
    lazymatch goal with
    | |- frame _ (bind _ _) => apply frame_bind
    | |- frame _ (try_catch _ _) => apply frame_try_catch
    | |- frame _ (ret _) => apply frame_ret
    | |- frame _ (throw _) => apply frame_throw
    | |- frame _ (get _ _) => apply frame_get
    | |- frame _ read_odooSessionCookie => apply frame_read
    | |- frame _ (console_ _ _) => apply frame_console; reflexivity
    | |- frame _ (res_status _) => apply frame_res_status; reflexivity
    | |- frame _ (res_json _) => apply frame_res_json; reflexivity
    | |- frame _ (write_odooSessionCookie _) => apply frame_write; reflexivity
    | |- frame _ (random_id _) => apply frame_random; reflexivity
    | |- frame _ (if ?b then _ else _) => destruct b
    | |- frame _ (match ?x with Some _ => _ | None => _ end) => destruct x
    | |- frame _ ?m => let hd := head_of m in unfold hd
    end)
with head_of m :=
  lazymatch m with
  | ?g _ => head_of g
  | _ => m
  end.

Lemma on_error_calls v rt e : frame calls (on_error v rt e).
Proof. destruct v, rt; frames. Qed.

Lemma on_error_session v rt e : frame odooSessionCookie (on_error v rt e).
Proof. destruct v, rt; frames. Qed.

Lemma on_reply_calls v rt r : frame calls (on_reply v rt r).
Proof. destruct v, rt; frames. Qed.

Lemma odoo_reply_session v r : frame odooSessionCookie (on_reply v api_odoo r).
Proof. destruct v; frames. Qed.

(** *** After the call: what settles, and how *)

(** Whatever the network does, the call is on the trace once, and nothing
    follows it. *)
Lemma settle_calls v rt t c w :
  calls (snd (settle v rt t c w)) = calls w ++ [c].
Proof.
  unfold settle. destruct t as [r|msg]; [destruct (validateStatus _)|].
  - rewrite frame_caught by apply on_error_calls. apply on_reply_calls.
  - apply on_error_calls.
  - apply on_error_calls.
Qed.

Lemma bind_console l s {B} (k : unit -> M B) w :
  bind (console_ l s) k w = k tt (with_line (l, s) w).
Proof. reflexivity. Qed.

(** The session after a login reply that axios accepts: the header decides,
    the body has no say. *)
Lemma login_reply_session v r w :
  odooSessionCookie
    (snd (try_catch (on_reply v api_login r) (on_error v api_login) w)) =
  match resp_set_cookie r with
  | Some header => captured v header
  | None => odooSessionCookie w
  end.
Proof.
  rewrite frame_caught by apply on_error_session.
  destruct v; cbv [on_reply ServerJs.login_reply Part000.login_reply].
  - rewrite frame_after by frames.
    destruct (resp_set_cookie r); cbn; [|reflexivity].
    now rewrite cookie_pairs_normalizes.
  - rewrite !bind_console. rewrite frame_after by frames.
    destruct (resp_set_cookie r); reflexivity.
Qed.

Lemma settle_login_session v t c w :
  odooSessionCookie (snd (settle v api_login t c w)) =
  match t with
  | HttpReply r =>
      if validateStatus (resp_status r)
      then match resp_set_cookie r with
           | Some header => captured v header
           | None => odooSessionCookie w
           end
      else odooSessionCookie w
  | NoReply _ => odooSessionCookie w
  end.
Proof.
  unfold settle. destruct t as [r|msg]; [destruct (validateStatus _)|].
  - now rewrite login_reply_session.
  - now rewrite on_error_session.
  - now rewrite on_error_session.
Qed.

Lemma settle_odoo_session v t c w :
  odooSessionCookie (snd (settle v api_odoo t c w)) = odooSessionCookie w.
Proof.
  unfold settle. destruct t as [r|msg]; [destruct (validateStatus _)|].
  - rewrite frame_caught by apply on_error_session.
    now rewrite odoo_reply_session.
  - now rewrite on_error_session.
  - now rewrite on_error_session.
Qed.

(** *** Running a piece of a handler *)

(** A three-digit status is its own [| 0]. *)
Lemma int32_status n : 0 <= n <= 999 -> int32 n = n.
Proof.
  intro H. unfold int32, double_of.
  rewrite Z.abs_eq by lia.
  assert ((n <? 2 ^ 53) = true) as -> by (apply Z.ltb_lt; lia).
  destruct (Z.eq_dec n 0) as [->|Hn]; [reflexivity|].
  rewrite Z.sgn_pos, Z.mul_1_l by lia.
  rewrite Z.mod_small; lia.
Qed.

(** Under a status that carries a body, [res.json] sends what it is
    given. *)
Lemma res_json_plain body w n :
  sent w = None -> statusCode w = VNum n -> carries_body n = true ->
  res_json body w = (Normal tt, with_sent (VNum n, body) w).
Proof.
  intros Hs Hc Hb. unfold res_json. rewrite Hs, Hc. cbn [status_int].
  unfold carries_body in Hb.
  apply andb_prop in Hb as [Hb Hn]. apply andb_prop in Hb as [H1 H2].
  apply Z.leb_le in H1, H2. rewrite int32_status by lia.
  apply negb_true_iff in Hn. rewrite Hn.
  assert (((n <? 100) || (999 <? n)) = false) as ->; [|reflexivity].
  apply orb_false_iff. split; apply Z.ltb_ge; lia.
Qed.

(** Unfold the monad and the effects, then compute what is decided. *)
Ltac monad :=
  cbv [try_catch bind ret throw get not_ orM or_else and_then
       console_ read_odooSessionCookie write_odooSessionCookie
       res_status random_id fresh_res
       with_cookie with_call with_draw with_line with_status
       response session outbound value_or];
  cbn [odooSessionCookie calls draws console statusCode sent node
       err_message err_response
       snd fst negb nullish prop truthy];
  erewrite ?res_json_plain by first [reflexivity | assumption];
  cbv [with_sent];
  cbn [odooSessionCookie calls draws console statusCode sent node
       err_message err_response
       snd fst negb nullish prop truthy].

(** The two halves of a handler, unfolded separately: the part after the
    [await] with the [catch] block, and the part before. *)
Ltac pieces :=
  cbv [on_reply on_error
       ServerJs.login_reply ServerJs.odoo_reply
       ServerJs.login_catch ServerJs.odoo_catch
       Part000.login_reply Part000.odoo_reply
       Part000.login_catch Part000.odoo_catch].

Ltac prefix :=
  cbv [handler
       ServerJs.api_login ServerJs.api_odoo
       ServerJs.body_odooConfig ServerJs.body_odooConfig_
       Part000.api_login Part000.api_odoo
       Part000.body_odooConfig Part000.body_odooConfig_
       Part000.correlation_id Part000.destructure_body].

(** A login reply that carries a user identifier is answered 200 with that
    identifier. *)
Lemma login_reply_uid v r w :
  truthy (uid_of r) = true ->
  sent w = None -> statusCode w = VNum 200 ->
  sent (snd (try_catch (on_reply v api_login r) (on_error v api_login) w)) =
  Some (VNum 200, VObj [("result"%string, uid_of r)]).
Proof.
  unfold uid_of. intros Hu Hs Hc.
  destruct (truthy_prop_inv _ _ Hu) as (fr & u & Er & Eu & Tu).
  assert (truthy (prop (resp_data r) "result") = true) as Hr by now rewrite Er.
  destruct (truthy_prop_inv _ _ Hr) as (fd & x & Ed & Ex & Tx).
  rewrite Ed in Er. cbn [prop] in Er. rewrite Ex in Er. subst x.
  destruct w as [ng ck cs dr co st sn]. simpl in Hs, Hc. subst.
  destruct v; pieces.
  all: rewrite Ed; monad; rewrite Ex; monad; rewrite Eu, Tu; monad.
  all: destruct (resp_set_cookie r); monad; rewrite ?Ex; monad; rewrite ?Eu;
    reflexivity.
Qed.

(** A reply to a forwarded call that axios accepts is passed on as it is. *)
Lemma odoo_reply_verbatim v r w :
  sent w = None -> statusCode w = VNum 200 ->
  sent (snd (try_catch (on_reply v api_odoo r) (on_error v api_odoo) w)) =
  Some (VNum 200, resp_data r).
Proof.
  intros Hs Hc. destruct w as [ng ck cs dr co st sn]. simpl in Hs, Hc. subst.
  destruct v; reflexivity.
Qed.

(** The [catch] blocks: no reply at all, an error reply with a body, an
    error reply whose body is [null]. *)
Lemma on_error_no_reply v rt msg w :
  sent w = None ->
  sent (snd (on_error v rt (mkError msg None) w)) =
  Some (VNum 500,
        VObj [("error"%string,
               value_or (VStr msg) (VStr (internal_error v rt)))]).
Proof.
  intros Hs. destruct w as [ng ck cs dr co st sn]. simpl in Hs. subst.
  destruct v, rt; pieces; monad; destruct (negb (msg =? EmptyString)%string);
    reflexivity.
Qed.

Lemma on_error_reply v rt msg r w :
  sent w = None -> nullish (resp_data r) = false ->
  carries_body (resp_status r) = true ->
  sent (snd (on_error v rt (mkError msg (Some r)) w)) =
  Some (VNum (resp_status r),
        VObj [("error"%string,
               value_or (prop (resp_data r) "error")
                        (VStr (default_detail v rt)))]).
Proof.
  intros Hs Hn Hb. destruct w as [ng ck cs dr co st sn]. simpl in Hs. subst.
  destruct v, rt; pieces; monad; rewrite Hn; monad;
    destruct (truthy (prop (resp_data r) "error")); monad; reflexivity.
Qed.

Lemma on_error_null_reply v rt msg r w :
  sent w = None -> nullish (resp_data r) = true ->
  fst (on_error v rt (mkError msg (Some r)) w)
  = Thrown (TypeError_read (resp_data r) "error") /\
  sent (snd (on_error v rt (mkError msg (Some r)) w)) = None.
Proof.
  intros Hs Hn. destruct w as [ng ck cs dr co st sn]. simpl in Hs. subst.
  destruct v, rt; pieces; monad; rewrite Hn; split; reflexivity.
Qed.

(** *** Before the call: validation *)

(** Decide the conditions the context knows the value of. *)
Ltac decide_ifs :=
  monad;
  repeat (match goal with
          | H : ?b = _ |- context [if ?b then _ else _] => rewrite H
          | H : ?b = _ |- context [negb ?b] => rewrite H
          end; monad).

Lemma fields_present_inv v req :
  fields_present v req = true ->
  nullish (req_body req) = false /\
  truthy (odooConfig_of req) = true /\
  nullish (odooConfig_of req) = false /\
  Forall (fun k => truthy (prop (odooConfig_of req) k) = true)
         (required_fields v).
Proof.
  unfold fields_present. intro H. apply andb_prop in H as [Hc Hf].
  repeat split.
  - now apply truthy_prop_nullish in Hc.
  - assumption.
  - now apply truthy_nullish.
  - apply Forall_forall. now apply forallb_forall.
Qed.

Ltac fields H :=
  apply fields_present_inv in H as (?N & ?T & ?N & H);
  cbn [required_fields] in H;
  repeat match type of H with
         | Forall _ (_ :: _) => apply Forall_cons_iff in H as [?T H]
         end;
  clear H; unfold odooConfig_of in *.

Ltac finish_started h :=
  cbv [settle axios_post login_call odoo_call odooConfig_of json_headers];
  decide_ifs;
  match goal with
  | |- context [upstream h ?c] =>
      destruct (upstream h c) as [?r|?msg];
      [destruct (validateStatus _)|]; reflexivity
  end.

(** A login request with its fields present reaches the upstream. *)
Lemma login_started v h req w :
  fields_present v req = true ->
  exists w1,
    handler v h api_login req (fresh_res w) =
    settle v api_login (upstream h (login_call v h req w))
      (login_call v h req w) w1 /\
    waiting w w1.
Proof.
  intro H. destruct v; fields H.
  - eexists (mkWorld _ _ _ _ _ _ _). split; [|now repeat split].
    prefix. decide_ifs. finish_started h.
  - destruct (truthy (prop (req_body req) "id")) eqn:Tid;
      (eexists (mkWorld _ _ _ _ _ _ _); split; [|now repeat split]);
      prefix; decide_ifs; finish_started h.
Qed.

Ltac walk H :=
  decide_ifs;
  lazymatch goal with
  | |- context [negb (truthy ?x)] =>
      let T := fresh "T" in
      destruct (truthy x) eqn:T; rewrite ?T in H;
      [ pose proof (truthy_nullish _ T); walk H
      | decide_ifs; reflexivity ]
  | |- _ => try (cbn in H; discriminate H)
  end.

(** A login request that lacks a field is refused on the spot. *)
Lemma login_refused v h req w :
  nullish (req_body req) = false ->
  fields_present v req = false ->
  handler v h api_login req (fresh_res w) =
  (Normal tt,
   mkWorld (node w) (odooSessionCookie w) (calls w) (draws w)
     (console w ++
      [(Error,
        match v with
        | server_js => "Missing Odoo configuration in login request body."
        | part_000 => "Login error: Missing required fields in odooConfig"
        end%string)])
     (VNum 400) (Some (missing_fields v))).
Proof.
  intros N H. unfold fields_present, odooConfig_of in H.
  destruct v; cbn [required_fields forallb] in H; prefix; walk H.
Qed.

(** The first variant answers a forwarded call without a session itself. *)
Lemma odoo_no_session h req w :
  truthy (odooSessionCookie w) = false ->
  handler server_js h api_odoo req (fresh_res w) =
  (Normal tt,
   mkWorld (node w) (odooSessionCookie w) (calls w) (draws w)
     (console w ++
      [(Warn, "No Odoo session cookie available. Client needs to log in first."%string)])
     (VNum 401) (Some no_active_session)).
Proof. intro H. prefix. decide_ifs. reflexivity. Qed.

Lemma odoo_started v h req w :
  let_through v h req w ->
  exists w1,
    handler v h api_odoo req (fresh_res w) =
    settle v api_odoo (upstream h (odoo_call v h req w))
      (odoo_call v h req w) w1 /\
    waiting w w1.
Proof.
  destruct v; intros [H1 H2]; unfold odooConfig_of in *.
  - pose proof (truthy_prop_nullish _ _ H2) as N0.
    assert (truthy (prop (req_body req) "odooConfig") = true) as T0
      by (destruct (prop (req_body req) "odooConfig"); now try discriminate).
    pose proof (truthy_prop_nullish _ _ T0) as N.
    eexists (mkWorld _ _ _ _ _ _ _). split; [|now repeat split].
    prefix. decide_ifs. finish_started h.
  - pose proof (truthy_prop_nullish _ _ H2) as N.
    destruct (truthy (prop (req_body req) "id")) eqn:Tid;
    destruct (truthy (odooSessionCookie w)) eqn:Tc;
      (eexists (mkWorld _ _ _ _ _ _ _); split; [|now repeat split]);
      prefix; decide_ifs; finish_started h.
Qed.

(** A forwarded call either never reaches the upstream or reaches it once,
    with the call the request describes. *)
Lemma odoo_outcome v h req w :
  calls (snd (handler v h api_odoo req (fresh_res w))) = calls w \/
  exists w1,
    handler v h api_odoo req (fresh_res w) =
    settle v api_odoo (upstream h (odoo_call v h req w))
      (odoo_call v h req w) w1 /\
    waiting w w1.
Proof.
  destruct v.
  - destruct (truthy (odooSessionCookie w)) eqn:Tc;
      [|left; now rewrite odoo_no_session].
    destruct (truthy (prop (odooConfig_of req) "url")) eqn:Tu;
      [right; now apply odoo_started|].
    left. unfold odooConfig_of in Tu. prefix.
    change ServerJs.odoo_catch with (on_error server_js api_odoo).
    destruct (nullish (req_body req)) eqn:N;
      [decide_ifs; now rewrite on_error_calls|].
    destruct (truthy (prop (req_body req) "odooConfig")) eqn:T0;
      [pose proof (truthy_nullish _ T0)|]; decide_ifs; reflexivity.
  - destruct (truthy (of_option (ODOO_URL h))) eqn:Tu.
    + destruct (truthy (prop (req_body req) "uid")) eqn:Ti;
        [right; now apply odoo_started|].
      left. prefix.
      change Part000.odoo_catch with (on_error part_000 api_odoo).
      destruct (nullish (req_body req)) eqn:N; decide_ifs;
        [now rewrite on_error_calls|reflexivity].
    + left. prefix.
      change Part000.odoo_catch with (on_error part_000 api_odoo).
      destruct (nullish (req_body req)) eqn:N; decide_ifs;
        [now rewrite on_error_calls|reflexivity].
Qed.

(** *** The claims *)

(** The scenario requests made with [with_key secret] present the key of
    the scenario hosts. *)
Ltac presents_secret :=
  exists secret; split; [reflexivity|split; [discriminate|reflexivity]].

(** The call on the trace of a settled handler is the call it issued. *)
Lemma issued_call v rt t c0 w1 w c :
  calls w1 = calls w ->
  calls (snd (settle v rt t c0 w1)) = calls w ++ [c] -> c = c0.
Proof.
  intros Hw Hc. rewrite settle_calls, Hw in Hc.
  apply app_inv_head in Hc. now injection Hc.
Qed.

Lemma no_call_made (cs : list axios_call) c : cs <> cs ++ [c].
Proof.
  intro H. apply (f_equal (@length _)) in H.
  rewrite length_app in H. simpl in H. lia.
Qed.

(** C1. A request to [POST /api/login] or [POST /api/odoo] whose X-API-Key
    header is absent or differs from the configured secret is answered 403
    with an error body, and nothing else happens: no upstream call, no
    change of the session, no random draw. *)
Theorem invalid_key_is_rejected v h rt req w :
  clientKey req = None \/ clientKey req <> API_KEY h ->
  let out := serve v h rt req w in
  response out = Some forbidden /\
  outbound out = calls w /\
  session out = odooSessionCookie w /\
  draws (snd out) = draws w.
Proof.
  intros H out. subst out. rewrite serve_rejected; [now repeat split|].
  destruct (negb (truthy (of_option (clientKey req)))
            || negb (strict_eq (clientKey req) (API_KEY h))) eqn:E;
    [reflexivity|].
  apply guard_condition in E. destruct E as (k & Hk & _ & Hs).
  destruct H as [H|H]; congruence.
Qed.

Lemma invalid_key_is_rejected_witness :
  (let out := serve server_js (host_of (HttpReply welcome)) api_login
                (without_key (login_body full_config)) idle in
   response out = Some forbidden /\ outbound out = calls idle /\
   session out = odooSessionCookie idle /\ draws (snd out) = draws idle) /\
  (let out := serve part_000 (host_of (HttpReply records)) api_odoo
                (with_key "guess" search_read) logged_in in
   response out = Some forbidden /\ outbound out = calls logged_in /\
   session out = odooSessionCookie logged_in /\
   draws (snd out) = draws logged_in).
Proof.
  split.
  - apply (invalid_key_is_rejected server_js (host_of (HttpReply welcome))
             api_login (without_key (login_body full_config)) idle).
    left. reflexivity.
  - apply (invalid_key_is_rejected part_000 (host_of (HttpReply records))
             api_odoo (with_key "guess" search_read) logged_in).
    right. vm_compute. discriminate.
Defined.

(** C10. When no secret is configured ([API_KEY] unset), every request to
    [POST /api/login] and [POST /api/odoo] is answered 403, whatever key the
    caller presents, absent and empty keys included; nothing reaches the
    upstream. *)
Theorem unset_secret_rejects_all v h rt req w :
  API_KEY h = None ->
  let out := serve v h rt req w in
  response out = Some forbidden /\
  outbound out = calls w /\
  session out = odooSessionCookie w.
Proof.
  intros H out. subst out. rewrite serve_rejected; [now repeat split|].
  rewrite H. destruct (clientKey req); simpl; [apply orb_true_r|reflexivity].
Qed.

Lemma unset_secret_rejects_all_witness :
  let out := serve server_js (host_with None (HttpReply welcome)) api_login
               (with_key EmptyString (login_body full_config)) idle in
  response out = Some forbidden /\ outbound out = calls idle /\
  session out = odooSessionCookie idle.
Proof.
  apply (unset_secret_rejects_all server_js
           (host_with None (HttpReply welcome)) api_login
           (with_key EmptyString (login_body full_config)) idle).
  reflexivity.
Defined.

(** C2. A login request with a valid key and every required field, to
    which the upstream replies (with a success status) a body whose
    [result] carries a user identifier [uid], is answered 200 with the body
    [{ result: uid }]. *)
Theorem login_success_returns_uid v h req w c r :
  valid_key h req ->
  fields_present v req = true ->
  outbound (serve v h api_login req w) = calls w ++ [c] ->
  upstream h c = HttpReply r ->
  validateStatus (resp_status r) = true ->
  truthy (uid_of r) = true ->
  response (serve v h api_login req w) =
  Some (VNum 200, VObj [("result"%string, uid_of r)]).
Proof.
  intros Hk Hf Hc Hu Hs Hid. unfold outbound, response in *.
  rewrite serve_accepted in * by assumption.
  destruct (login_started v h req w Hf) as (w1 & E & Hw & _ & Hsent & Hst).
  rewrite E in *. apply issued_call in Hc as ->; [|assumption].
  rewrite Hu. unfold settle. rewrite Hs.
  now apply login_reply_uid.
Qed.

Lemma login_success_returns_uid_witness :
  response (serve server_js (host_of (HttpReply welcome)) api_login
              (with_key secret (login_body full_config)) idle) =
  Some (VNum 200, VObj [("result"%string, uid_of welcome)]) /\
  response (serve part_000 (host_of (HttpReply welcome)) api_login
              (with_key secret (login_body config_without_url)) logged_in) =
  Some (VNum 200, VObj [("result"%string, uid_of welcome)]).
Proof.
  split.
  - apply (login_success_returns_uid server_js (host_of (HttpReply welcome))
             (with_key secret (login_body full_config)) idle
             (login_call server_js (host_of (HttpReply welcome))
                (with_key secret (login_body full_config)) idle) welcome).
    + presents_secret.
    + reflexivity.
    + vm_compute. reflexivity.
    + reflexivity.
    + reflexivity.
    + reflexivity.
  - apply (login_success_returns_uid part_000 (host_of (HttpReply welcome))
             (with_key secret (login_body config_without_url)) logged_in
             (login_call part_000 (host_of (HttpReply welcome))
                (with_key secret (login_body config_without_url)) logged_in)
             welcome).
    + presents_secret.
    + reflexivity.
    + vm_compute. reflexivity.
    + reflexivity.
    + reflexivity.
    + reflexivity.
Defined.

(** The session a login leaves behind when the reply has a success status:
    the Set-Cookie header decides, whatever the body says and whatever was
    stored before. *)
Lemma login_session_after_reply v h req w c r :
  valid_key h req ->
  fields_present v req = true ->
  outbound (serve v h api_login req w) = calls w ++ [c] ->
  upstream h c = HttpReply r ->
  validateStatus (resp_status r) = true ->
  session (serve v h api_login req w) =
  match resp_set_cookie r with
  | Some header => captured v header
  | None => odooSessionCookie w
  end.
Proof.
  intros Hk Hf Hc Hu Hs. unfold outbound, session in *.
  rewrite serve_accepted in * by assumption.
  destruct (login_started v h req w Hf) as (w1 & E & Hw & Hck & _).
  rewrite E in *. apply issued_call in Hc as ->; [|assumption].
  rewrite settle_login_session, Hu, Hs, Hck. reflexivity.
Qed.

(** C3, as the code has it.  When the upstream's reply to a login has a
    success status and carries a Set-Cookie header, the session held
    afterwards replaces whatever was held before and is: in [server.js],
    the normalization of the header (each cookie cut at its first [;], the
    pairs joined with ["; "]); in the second variant, the header's list of
    cookie strings as received, attributes included. *)
Theorem login_stores_captured_cookie v h req w c r header :
  valid_key h req ->
  fields_present v req = true ->
  outbound (serve v h api_login req w) = calls w ++ [c] ->
  upstream h c = HttpReply r ->
  validateStatus (resp_status r) = true ->
  resp_set_cookie r = Some header ->
  session (serve v h api_login req w) =
  match v with
  | server_js => VStr (normalization header)
  | part_000 => VArr (map VStr header)
  end.
Proof.
  intros Hk Hf Hc Hu Hs Hh.
  rewrite (login_session_after_reply v h req w c r) by assumption.
  rewrite Hh. now destruct v.
Qed.

Lemma login_stores_captured_cookie_witness :
  session (serve server_js (host_of (HttpReply welcome)) api_login
             (with_key secret (login_body full_config)) logged_in) =
  VStr (normalization [session_cookie]) /\
  session (serve part_000 (host_of (HttpReply welcome)) api_login
             (with_key secret (login_body full_config)) logged_in) =
  VArr (map VStr [session_cookie]).
Proof.
  split.
  - apply (login_stores_captured_cookie server_js
             (host_of (HttpReply welcome))
             (with_key secret (login_body full_config)) logged_in
             (login_call server_js (host_of (HttpReply welcome))
                (with_key secret (login_body full_config)) logged_in)
             welcome [session_cookie]).
    + presents_secret.
    + reflexivity.
    + vm_compute. reflexivity.
    + reflexivity.
    + reflexivity.
    + reflexivity.
  - apply (login_stores_captured_cookie part_000
             (host_of (HttpReply welcome))
             (with_key secret (login_body full_config)) logged_in
             (login_call part_000 (host_of (HttpReply welcome))
                (with_key secret (login_body full_config)) logged_in)
             welcome [session_cookie]).
    + presents_secret.
    + reflexivity.
    + vm_compute. reflexivity.
    + reflexivity.
    + reflexivity.
    + reflexivity.
Defined.

(** C3 as stated fails on the second variant: after a successful login
    whose reply carries one cookie with attributes, the session is the list
    holding that cookie whole, not the normalization of the header. *)
Lemma raw_header_is_stored :
  let out := serve part_000 (host_of (HttpReply welcome)) api_login
               (with_key secret (login_body full_config)) idle in
  resp_set_cookie welcome = Some [session_cookie] /\
  normalization [session_cookie] = "session_id=abc123"%string /\
  session out = VArr [VStr session_cookie] /\
  session out <> VStr (normalization [session_cookie]).
Proof.
  vm_compute. repeat split. discriminate.
Qed.

(** C4, as the code has it.  When the upstream's reply to a login has a
    success status and a body that carries no user identifier, the session
    is left unchanged if the reply has no Set-Cookie header; if it has one,
    the session is replaced by what the variant captures from the header,
    just as for a reply that carries a user identifier. *)
Theorem login_without_uid_session v h req w c r :
  valid_key h req ->
  fields_present v req = true ->
  outbound (serve v h api_login req w) = calls w ++ [c] ->
  upstream h c = HttpReply r ->
  validateStatus (resp_status r) = true ->
  truthy (uid_of r) = false ->
  session (serve v h api_login req w) =
  match resp_set_cookie r with
  | Some header => captured v header
  | None => odooSessionCookie w
  end.
Proof.
  intros Hk Hf Hc Hu Hs _. now apply (login_session_after_reply v h req w c r).
Qed.

Lemma login_without_uid_session_witness :
  session (serve server_js (host_of (HttpReply session_expired)) api_login
             (with_key secret (login_body full_config)) logged_in) =
  odooSessionCookie logged_in /\
  session (serve part_000 (host_of (HttpReply access_denied)) api_login
             (with_key secret (login_body full_config)) logged_in) =
  captured part_000 [session_cookie].
Proof.
  split.
  - apply (login_without_uid_session server_js
             (host_of (HttpReply session_expired))
             (with_key secret (login_body full_config)) logged_in
             (login_call server_js (host_of (HttpReply session_expired))
                (with_key secret (login_body full_config)) logged_in)
             session_expired).
    + presents_secret.
    + reflexivity.
    + vm_compute. reflexivity.
    + reflexivity.
    + reflexivity.
    + reflexivity.
  - apply (login_without_uid_session part_000
             (host_of (HttpReply access_denied))
             (with_key secret (login_body full_config)) logged_in
             (login_call part_000 (host_of (HttpReply access_denied))
                (with_key secret (login_body full_config)) logged_in)
             access_denied).
    + presents_secret.
    + reflexivity.
    + vm_compute. reflexivity.
    + reflexivity.
    + reflexivity.
    + reflexivity.
Defined.

(** C4 as stated fails on both variants: the upstream answers a login with
    an authentication-error envelope (no user identifier) and a Set-Cookie
    header; the caller is told 401 (first variant), and the session held
    before is gone, replaced by the cookie of the failed login. *)
Lemma failed_login_replaces_session :
  let out := serve server_js (host_of (HttpReply access_denied)) api_login
               (with_key secret (login_body full_config)) logged_in in
  let out' := serve part_000 (host_of (HttpReply access_denied)) api_login
                (with_key secret (login_body full_config)) logged_in in
  uid_of access_denied = VUndefined /\
  response out = Some (VNum 401, VObj [("error"%string, VStr "Access Denied")]) /\
  odooSessionCookie logged_in = VStr "session_id=old" /\
  session out = VStr "session_id=abc123" /\
  session out <> odooSessionCookie logged_in /\
  session out' = VArr [VStr session_cookie] /\
  session out' <> odooSessionCookie logged_in.
Proof.
  vm_compute. repeat split; discriminate.
Qed.

(** C5. When a forwarded call has reached the upstream and the upstream's
    reply has a success status, the caller is answered 200 with the body of
    that reply, as it is. *)
Theorem forwarded_reply_is_verbatim v h req w c r :
  outbound (serve v h api_odoo req w) = calls w ++ [c] ->
  upstream h c = HttpReply r ->
  validateStatus (resp_status r) = true ->
  response (serve v h api_odoo req w) = Some (VNum 200, resp_data r).
Proof.
  intros Hc Hu Hs. unfold outbound, response in *.
  destruct (negb (truthy (of_option (clientKey req)))
            || negb (strict_eq (clientKey req) (API_KEY h))) eqn:G.
  - rewrite serve_rejected in Hc by assumption.
    now apply no_call_made in Hc.
  - apply guard_condition in G. rewrite serve_accepted in * by exact G.
    destruct (odoo_outcome v h req w)
      as [E | (w1 & E & Hw & _ & Hsent & Hst)].
    + rewrite E in Hc. now apply no_call_made in Hc.
    + rewrite E in *. apply issued_call in Hc as ->; [|assumption].
      rewrite Hu. unfold settle. rewrite Hs.
      now apply odoo_reply_verbatim.
Qed.

Lemma forwarded_reply_is_verbatim_witness :
  response (serve server_js (host_of (HttpReply records)) api_odoo
              (with_key secret search_read) logged_in) =
  Some (VNum 200, resp_data records) /\
  response (serve part_000 (host_of (HttpReply records)) api_odoo
              (with_key secret search_read) logged_in) =
  Some (VNum 200, resp_data records).
Proof.
  split.
  - apply (forwarded_reply_is_verbatim server_js (host_of (HttpReply records))
             (with_key secret search_read) logged_in
             (odoo_call server_js (host_of (HttpReply records))
                (with_key secret search_read) logged_in) records).
    + vm_compute. reflexivity.
    + reflexivity.
    + reflexivity.
  - apply (forwarded_reply_is_verbatim part_000 (host_of (HttpReply records))
             (with_key secret search_read) logged_in
             (odoo_call part_000 (host_of (HttpReply records))
                (with_key secret search_read) logged_in) records).
    + vm_compute. reflexivity.
    + reflexivity.
    + reflexivity.
Defined.

(** A login whose call fails leaves the session alone and makes no second
    call.  The caller is answered 500 with the error's message when no
    reply arrived, and with the upstream's status and error detail when a
    reply with another status than 2xx arrived, has a body and a status
    under which a body goes out; when that body is [null], reading the detail throws inside the [catch] block and
    the handler sends nothing. *)
Lemma login_failure v h req w c :
  valid_key h req ->
  fields_present v req = true ->
  outbound (serve v h api_login req w) = calls w ++ [c] ->
  let out := serve v h api_login req w in
  match upstream h c with
  | NoReply msg =>
      session out = odooSessionCookie w /\
      response out =
      Some (VNum 500,
            VObj [("error"%string,
                   value_or (VStr msg) (VStr (internal_error v api_login)))])
  | HttpReply r =>
      validateStatus (resp_status r) = false ->
      session out = odooSessionCookie w /\
      (nullish (resp_data r) = false ->
       carries_body (resp_status r) = true ->
       response out =
       Some (VNum (resp_status r),
             VObj [("error"%string,
                    value_or (prop (resp_data r) "error")
                             (VStr (default_detail v api_login)))])) /\
      (nullish (resp_data r) = true ->
       fst out = Thrown (TypeError_read (resp_data r) "error") /\
       response out = None)
  end.
Proof.
  intros Hk Hf Hc out. subst out. unfold outbound, response, session in *.
  rewrite serve_accepted in * by assumption.
  destruct (login_started v h req w Hf) as (w1 & E & Hw & Hck & Hsent & Hst).
  rewrite E in *. apply issued_call in Hc as ->; [|assumption].
  rewrite settle_login_session. unfold settle.
  destruct (upstream h (login_call v h req w)) as [r|msg].
  - intros ->. split; [assumption|]. split.
    + intros Hn Hb. now apply on_error_reply.
    + intro Hn. now apply on_error_null_reply.
  - split; [assumption|]. now apply on_error_no_reply.
Qed.

(** C6, at the input where the code departs from it.  The upstream answers
    a login with status 502 and the body [null]: in both variants the
    [catch] block throws a TypeError of its own while building the error
    response, the exception leaves the handler and no response is sent.
    (The session is left as it was.) *)
Theorem login_error_reply_with_null_body v :
  let out := serve v (host_of (HttpReply bad_gateway)) api_login
               (with_key secret (login_body full_config)) logged_in in
  validateStatus (resp_status bad_gateway) = false /\
  fst out = Thrown (TypeError_read VNull "error") /\
  response out = None /\
  session out = odooSessionCookie logged_in.
Proof.
  destruct v; vm_compute; repeat split.
Qed.

(** A forwarded call made while no session is held meets one fixed policy
    per variant.  [server.js] answers 401 itself and does not contact the
    upstream.  The second variant (given its input contract) forwards the
    call the request describes, once, with the content type as its only
    header, and passes on what the upstream makes of it: the body of a reply
    with a success status as it is, the status and error detail of any other
    reply that has a body, 500 when no reply arrives.  When the upstream's
    rejection has the body [null], the [catch] block throws and nothing is
    sent. *)
Lemma no_session_policy v h req w :
  valid_key h req ->
  odooSessionCookie w = VNull ->
  (v = part_000 -> forward_contract h req) ->
  let out := serve v h api_odoo req w in
  match v with
  | server_js =>
      response out = Some no_active_session /\ outbound out = calls w
  | part_000 =>
      let c := odoo_call part_000 h req w in
      outbound out = calls w ++ [c] /\
      cfg_headers (call_config c) = json_headers /\
      match upstream h c with
      | HttpReply r =>
          if validateStatus (resp_status r)
          then response out = Some (VNum 200, resp_data r)
          else
            (nullish (resp_data r) = false ->
             carries_body (resp_status r) = true ->
             response out =
             Some (VNum (resp_status r),
                   VObj [("error"%string,
                          value_or (prop (resp_data r) "error")
                                   (VStr "Odoo API error"))])) /\
            (nullish (resp_data r) = true ->
             fst out = Thrown (TypeError_read (resp_data r) "error") /\
             response out = None)
      | NoReply msg =>
          response out =
          Some (VNum 500,
                VObj [("error"%string,
                       value_or (VStr msg)
                         (VStr "Internal Server Error during Odoo API call"))])
      end
  end.
Proof.
  intros Hk Hw Hin out. subst out. unfold outbound, response.
  rewrite serve_accepted by assumption. destruct v.
  - rewrite odoo_no_session by now rewrite Hw. now split.
  - specialize (Hin eq_refl).
    destruct (odoo_started part_000 h req w Hin)
      as (w1 & E & Hc & _ & Hsent & Hst).
    rewrite E. cbv zeta. repeat split.
    + now rewrite settle_calls, Hc.
    + cbn. now rewrite Hw.
    + unfold settle.
      destruct (upstream h (odoo_call part_000 h req w)) as [r|msg];
        [destruct (validateStatus (resp_status r))|].
      * now apply odoo_reply_verbatim.
      * split.
        -- intros Hn Hb. now apply (on_error_reply part_000 api_odoo).
        -- intro Hn. now apply (on_error_null_reply part_000 api_odoo).
      * now apply (on_error_no_reply part_000 api_odoo).
Qed.

(** C7, at the input where the code departs from it.  Second variant, no
    session held, a request that meets the input contract: the call goes
    out to [<ODOO_URL>/web/dataset/call_kw] with the request's model,
    method, arguments and id and without a Cookie header; the upstream
    rejects it with status 401 and the body [null].  The [catch] block
    throws while it reads the detail of the rejection: the exception leaves
    the handler and the upstream's rejection is not passed on, no response
    is sent. *)
Theorem no_session_rejection_is_lost :
  let h := host_of (HttpReply unauthorized_null) in
  let req := with_key secret search_read_with_id in
  let out := serve part_000 h api_odoo req idle in
  odooSessionCookie idle = VNull /\
  outbound out =
  [mkCall "https://odoo.example/web/dataset/call_kw"
     (VObj [("jsonrpc", VStr "2.0"); ("method", VStr "call");
            ("params",
             VObj [("model", VStr "product.template");
                   ("method", VStr "search_read");
                   ("args", VArr [VArr []]);
                   ("kwargs", VObj [("limit", VNum 5)])]);
            ("id", VNum 9)]%string)
     (mkConfig [("Content-Type", VStr "application/json")]%string false 10000)] /\
  validateStatus (resp_status unauthorized_null) = false /\
  fst out = Thrown (TypeError_read VNull "error") /\
  response out = None.
Proof.
  vm_compute. repeat split.
Qed.




(** A login request with a valid key and a parsed body in which a field
    the variant requires is missing (tenant identifier, login or secret and,
    in [server.js], the target address [url]) is answered 400 with a
    client-input error; nothing reaches the upstream and the session is left
    alone. *)
Theorem missing_field_is_refused v h req w :
  valid_key h req ->
  nullish (req_body req) = false ->
  fields_present v req = false ->
  let out := serve v h api_login req w in
  response out = Some (missing_fields v) /\
  outbound out = calls w /\
  session out = odooSessionCookie w.
Proof.
  intros Hk Hn Hf out. subst out. unfold response, outbound, session.
  rewrite serve_accepted by assumption.
  rewrite login_refused by assumption. now repeat split.
Qed.

Lemma missing_field_is_refused_witness :
  (let out := serve server_js (host_of (HttpReply welcome)) api_login
                (with_key secret (login_body config_without_url)) idle in
   response out = Some (missing_fields server_js) /\
   outbound out = calls idle /\ session out = odooSessionCookie idle) /\
  (let out := serve part_000 (host_of (HttpReply welcome)) api_login
                (with_key secret (login_body config_without_password)) idle in
   response out = Some (missing_fields part_000) /\
   outbound out = calls idle /\ session out = odooSessionCookie idle).
Proof.
  split.
  - apply (missing_field_is_refused server_js (host_of (HttpReply welcome))
             (with_key secret (login_body config_without_url)) idle).
    + presents_secret.
    + reflexivity.
    + reflexivity.
  - apply (missing_field_is_refused part_000 (host_of (HttpReply welcome))
             (with_key secret (login_body config_without_password)) idle).
    + presents_secret.
    + reflexivity.
    + reflexivity.
Defined.

(** C9, at the input where the code departs from it.  Second variant,
    [ODOO_URL] unset, a login request that names tenant, login and secret
    but no target address: none is configured and none is supplied.  The
    handler does not answer 400; it attempts the call, to the address
    "undefined/web/session/authenticate", and reports the failure of that
    call as 500.  The forwarding handler of the same file answers the same
    situation with a configuration error before any call. *)
Theorem login_without_target_is_attempted :
  let h := host_without_url (NoReply "Invalid URL") in
  let req := with_key secret (login_body config_without_url) in
  let out := serve part_000 h api_login req idle in
  ODOO_URL h = None /\
  prop (odooConfig_of req) "url" = VUndefined /\
  (exists c,
     outbound out = [c] /\
     call_url c = "undefined/web/session/authenticate"%string) /\
  response out = Some (VNum 500, VObj [("error"%string, VStr "Invalid URL")]) /\
  response (serve part_000 h api_odoo (with_key secret search_read) idle) =
  Some (VNum 500,
        VObj [("error"%string,
               VStr "Server configuration error: Odoo URL not set.")]) /\
  outbound (serve part_000 h api_odoo (with_key secret search_read) idle) = [].
Proof.
  vm_compute. repeat split. eexists. split; reflexivity.
Qed.

(** ** Further properties of the two files *)

(** *** The CORS policy of [server.js] *)

Lemma indexOf_lower x arr : -1 <= indexOf x arr.
Proof.
  induction arr as [|y rest IH]; simpl; [lia|].
  destruct (x =? y)%string; [lia|].
  destruct (indexOf x rest =? -1) eqn:E; lia.
Qed.

(** [indexOf] answers -1 exactly for the strings that are not in the
    array. *)
Lemma indexOf_absent x arr : indexOf x arr = -1 <-> ~ In x arr.
Proof.
  induction arr as [|y rest IH]; simpl; [tauto|].
  destruct (x =? y)%string eqn:E.
  - apply String.eqb_eq in E. subst. split; [discriminate|tauto].
  - apply String.eqb_neq in E.
    pose proof (indexOf_lower x rest).
    destruct (indexOf x rest =? -1) eqn:E'.
    + apply Z.eqb_eq in E'. split; [|reflexivity].
      intros _ [H'|H']; [congruence|]. now apply IH.
    + apply Z.eqb_neq in E'. split; [lia|].
      intro Hn. exfalso. apply E', IH. tauto.
Qed.

(** X1. The CORS policy of [server.js] lets a request through exactly when
    it names no origin (absent or empty) or names the one allowed origin,
    letter for letter; every other origin gets the policy's error. *)
Theorem cors_lets_through_iff origin :
  (ServerJs.cors_origin origin = (None, true) <->
   origin = None \/ origin = Some EmptyString \/
   origin = Some "https://imitrr.github.io"%string) /\
  (ServerJs.cors_origin origin = (None, true) \/
   ServerJs.cors_origin origin =
   (Some "The CORS policy for this site does not allow access from the specified Origin."%string,
    false)).
Proof.
  unfold ServerJs.cors_origin.
  destruct origin as [o|]; cbn [of_option truthy to_string negb];
    [|split; [split; auto|now left]].
  destruct (o =? EmptyString)%string eqn:Eo; cbn [negb].
  { apply String.eqb_eq in Eo. subst. split; [split; auto|now left]. }
  apply String.eqb_neq in Eo.
  destruct (indexOf o ServerJs.allowedOrigins =? -1) eqn:E.
  - apply Z.eqb_eq, indexOf_absent in E. split; [|now right].
    split; [discriminate|].
    intros [H|[H|H]]; try discriminate; injection H as H; [congruence|].
    exfalso. apply E. left. now symmetry.
  - apply Z.eqb_neq in E. split; [|now left].
    split; [|reflexivity]. intros _. right. right. f_equal.
    destruct (in_dec string_dec o ServerJs.allowedOrigins) as [Hin|Hin].
    + destruct Hin as [H|[]]. now symmetry.
    + now apply indexOf_absent in Hin.
Qed.

(** *** The access guard, once more *)

(** X2. A secret configured as the empty string closes the relay like an
    unset one: no key can be presented that passes the guard. *)
Theorem empty_secret_rejects_all v h rt req w :
  API_KEY h = Some EmptyString ->
  let out := serve v h rt req w in
  response out = Some forbidden /\
  outbound out = calls w /\
  session out = odooSessionCookie w.
Proof.
  intros H out. subst out. rewrite serve_rejected; [now repeat split|].
  destruct (negb (truthy (of_option (clientKey req)))
            || negb (strict_eq (clientKey req) (API_KEY h))) eqn:G;
    [reflexivity|].
  apply guard_condition in G as (k & _ & Hk & Hs). congruence.
Qed.

Lemma empty_secret_rejects_all_witness :
  let out := serve part_000 (host_with (Some EmptyString) (HttpReply records))
               api_odoo (with_key EmptyString search_read) logged_in in
  response out = Some forbidden /\ outbound out = calls logged_in /\
  session out = odooSessionCookie logged_in.
Proof.
  apply (empty_secret_rejects_all part_000
           (host_with (Some EmptyString) (HttpReply records)) api_odoo
           (with_key EmptyString search_read) logged_in).
  reflexivity.
Defined.

(** *** One request, at most one call *)

Lemma frame_axios_post {X} (f : world -> X)
  (Hf : forall c w, f (with_call c w) = f w) up url p cfg :
  frame f (axios_post up url p cfg).
Proof.
  intro w. unfold axios_post.
  destruct (up _) as [r|msg]; [destruct (validateStatus _)|]; apply Hf.
Qed.

Ltac frames_io :=
  repeat (intros;
    lazymatch goal with
    | |- frame _ (bind _ _) => apply frame_bind
    | |- frame _ (try_catch _ _) => apply frame_try_catch
    | |- frame _ (ret _) => apply frame_ret
    | |- frame _ (throw _) => apply frame_throw
    | |- frame _ (get _ _) => apply frame_get
    | |- frame _ read_odooSessionCookie => apply frame_read
    | |- frame _ (console_ _ _) => apply frame_console; reflexivity
    | |- frame _ (res_status _) => apply frame_res_status; reflexivity
    | |- frame _ (res_json _) => apply frame_res_json; reflexivity
    | |- frame _ (write_odooSessionCookie _) => apply frame_write; reflexivity
    | |- frame _ (random_id _) => apply frame_random; reflexivity
    | |- frame _ (axios_post _ _ _ _) => apply frame_axios_post; reflexivity
    | |- frame _ (if ?b then _ else _) => destruct b
    | |- frame _ (match ?x with Some _ => _ | None => _ end) => destruct x
    | |- frame _ (let _ := _ in _) => cbv zeta
    | |- frame _ ?m => let hd := head_of m in unfold hd
    end).

Lemma login_outcome v h req w :
  calls (snd (handler v h api_login req (fresh_res w))) = calls w \/
  exists w1,
    handler v h api_login req (fresh_res w) =
    settle v api_login (upstream h (login_call v h req w))
      (login_call v h req w) w1 /\
    waiting w w1.
Proof.
  destruct (fields_present v req) eqn:F; [right; now apply login_started|].
  left. destruct (nullish (req_body req)) eqn:N;
    [|now rewrite login_refused].
  destruct v; prefix;
    [change ServerJs.login_catch with (on_error server_js api_login)
    |change Part000.login_catch with (on_error part_000 api_login)];
    decide_ifs; now rewrite on_error_calls.
Qed.

(** Serving a request either leaves the trace alone or issues one call and
    settles it. *)
Lemma serve_outcome v h rt req w :
  outbound (serve v h rt req w) = calls w \/
  exists c0 w1,
    serve v h rt req w = settle v rt (upstream h c0) c0 w1 /\ waiting w w1.
Proof.
  unfold outbound.
  destruct (negb (truthy (of_option (clientKey req)))
            || negb (strict_eq (clientKey req) (API_KEY h))) eqn:G.
  - left. now rewrite serve_rejected.
  - apply guard_condition in G. rewrite serve_accepted by exact G.
    destruct rt.
    + destruct (login_outcome v h req w) as [E|(w1 & E & Hw)]; [now left|].
      right. now exists (login_call v h req w), w1.
    + destruct (odoo_outcome v h req w) as [E|(w1 & E & Hw)]; [now left|].
      right. now exists (odoo_call v h req w), w1.
Qed.

(** X3. Whatever the request, the state and the upstream's behaviour, an
    inbound request leads to at most one outbound call, added at the end of
    the trace: nothing is retried and no earlier entry is touched. *)
Theorem at_most_one_call v h rt req w :
  outbound (serve v h rt req w) = calls w \/
  exists c, outbound (serve v h rt req w) = calls w ++ [c].
Proof.
  destruct (serve_outcome v h rt req w) as [E|(c0 & w1 & E & Hw & _)];
    [now left|].
  right. exists c0. unfold outbound. now rewrite E, settle_calls, Hw.
Qed.

(** *** The forwarding route *)

Lemma guard_frame {X} (f : world -> X) v h rt req :
  (forall l w, f (with_line l w) = f w) ->
  (forall c w, f (with_status c w) = f w) ->
  (forall r w, f (with_sent r w) = f w) ->
  frame f (handler v h rt req) -> frame f (app_post v h rt req).
Proof.
  intros H1 H2 H3 Hh. unfold app_post.
  destruct v; unfold ServerJs.verifyApiKey, Part000.verifyApiKey;
    (destruct (_ || _); [|assumption]);
    repeat (apply frame_bind; intros);
    first [now apply frame_console | now apply frame_res_status
          | now apply frame_res_json].
Qed.

(** X4. The forwarding route never writes the session: whatever the
    request and whatever the upstream answers (a Set-Cookie header
    included), the token held after [POST /api/odoo] is the one held
    before. *)
Theorem forwarding_keeps_session v h req w :
  session (serve v h api_odoo req w) = odooSessionCookie w.
Proof.
  unfold session, serve.
  assert (frame odooSessionCookie (app_post v h api_odoo req)) as F.
  { apply guard_frame; try reflexivity. destruct v; frames_io. }
  now rewrite F.
Qed.



(** X6. [server.js]: a forwarded call made while a session is held, whose
    (parsed) body names no target address [odooConfig.url], is answered 400
    and does not reach the upstream. *)
Theorem forward_without_url_is_refused h req w :
  valid_key h req ->
  truthy (odooSessionCookie w) = true ->
  nullish (req_body req) = false ->
  truthy (prop (odooConfig_of req) "url") = false ->
  let out := serve server_js h api_odoo req w in
  response out =
  Some (VNum 400,
        VObj [("error"%string, VStr "Missing Odoo URL in request body")]) /\
  outbound out = calls w.
Proof.
  intros Hk Hc Hn Hu out. subst out. unfold response, outbound, odooConfig_of in *.
  rewrite serve_accepted by assumption. prefix.
  destruct (truthy (prop (req_body req) "odooConfig")) eqn:T0;
    [pose proof (truthy_nullish _ T0)|]; decide_ifs; now split.
Qed.

Lemma forward_without_url_is_refused_witness :
  let out := serve server_js (host_of (HttpReply records)) api_odoo
               (with_key secret search_read_without_url) logged_in in
  response out =
  Some (VNum 400,
        VObj [("error"%string, VStr "Missing Odoo URL in request body")]) /\
  outbound out = calls logged_in.
Proof.
  apply (forward_without_url_is_refused (host_of (HttpReply records))
           (with_key secret search_read_without_url) logged_in).
  - presents_secret.
  - reflexivity.
  - reflexivity.
  - reflexivity.
Defined.

(** X7. Second variant: when [ODOO_URL] is unset or empty, every forwarded
    call with a valid key and a parsed body is answered 500 with a
    configuration error, whatever it asks for and whether or not a session
    is held; nothing is sent upstream. *)
Theorem forward_without_ODOO_URL h req w :
  valid_key h req ->
  nullish (req_body req) = false ->
  truthy (of_option (ODOO_URL h)) = false ->
  let out := serve part_000 h api_odoo req w in
  response out =
  Some (VNum 500,
        VObj [("error"%string,
               VStr "Server configuration error: Odoo URL not set.")]) /\
  outbound out = calls w.
Proof.
  intros Hk Hn Hu out. subst out. unfold response, outbound.
  rewrite serve_accepted by assumption. prefix. decide_ifs. now split.
Qed.

Lemma forward_without_ODOO_URL_witness :
  let out := serve part_000 (host_without_url (HttpReply records)) api_odoo
               (with_key secret search_read) logged_in in
  response out =
  Some (VNum 500,
        VObj [("error"%string,
               VStr "Server configuration error: Odoo URL not set.")]) /\
  outbound out = calls logged_in.
Proof.
  apply (forward_without_ODOO_URL (host_without_url (HttpReply records))
           (with_key secret search_read) logged_in).
  - presents_secret.
  - reflexivity.
  - reflexivity.
Defined.

(** X8. Second variant: with [ODOO_URL] configured, a forwarded call whose
    (parsed) body names no user id [uid] is answered 400 and does not reach
    the upstream, session or no session. *)
Theorem forward_without_uid_is_refused h req w :
  valid_key h req ->
  nullish (req_body req) = false ->
  truthy (of_option (ODOO_URL h)) = true ->
  truthy (prop (req_body req) "uid") = false ->
  let out := serve part_000 h api_odoo req w in
  response out =
  Some (VNum 400,
        VObj [("error"%string,
               VStr "User ID (UID) is required for Odoo API calls.")]) /\
  outbound out = calls w.
Proof.
  intros Hk Hn Hu Hi out. subst out. unfold response, outbound.
  rewrite serve_accepted by assumption. prefix. decide_ifs. now split.
Qed.

Lemma forward_without_uid_is_refused_witness :
  let out := serve part_000 (host_of (HttpReply records)) api_odoo
               (with_key secret search_read_without_uid) logged_in in
  response out =
  Some (VNum 400,
        VObj [("error"%string,
               VStr "User ID (UID) is required for Odoo API calls.")]) /\
  outbound out = calls logged_in.
Proof.
  apply (forward_without_uid_is_refused (host_of (HttpReply records))
           (with_key secret search_read_without_uid) logged_in).
  - presents_secret.
  - reflexivity.
  - reflexivity.
  - reflexivity.
Defined.

(** *** Failures of the outbound call *)

Lemma settle_session_on_failure v rt t c w :
  match t with
  | HttpReply r => validateStatus (resp_status r) = false
  | NoReply _ => True
  end ->
  odooSessionCookie (snd (settle v rt t c w)) = odooSessionCookie w.
Proof.
  intro H. destruct rt; [|apply settle_odoo_session].
  rewrite settle_login_session. destruct t as [r|msg]; [now rewrite H|reflexivity].
Qed.

(** X9. On both routes of both variants: when the call a request led to
    gets no reply (timeout, connection failure), the caller is answered 500
    with the error's message, or with the route's fallback text when the
    message is empty, and the session is left as it was. *)
Theorem no_reply_is_answered_500 v h rt req w c msg :
  outbound (serve v h rt req w) = calls w ++ [c] ->
  upstream h c = NoReply msg ->
  response (serve v h rt req w) =
  Some (VNum 500,
        VObj [("error"%string,
               value_or (VStr msg) (VStr (internal_error v rt)))]) /\
  session (serve v h rt req w) = odooSessionCookie w.
Proof.
  intros Hc Hu. unfold outbound, response, session in *.
  destruct (serve_outcome v h rt req w)
    as [E|(c0 & w1 & E & Hw & Hck & Hsent & Hst)].
  - unfold outbound in E. rewrite E in Hc. now apply no_call_made in Hc.
  - rewrite E in *. apply issued_call in Hc as ->; [|assumption].
    rewrite settle_session_on_failure by now rewrite Hu.
    rewrite Hu. unfold settle. split; [|assumption].
    now apply on_error_no_reply.
Qed.

Lemma no_reply_is_answered_500_witness :
  (let h := host_of (NoReply "timeout of 10000ms exceeded") in
   let req := with_key secret (login_body full_config) in
   response (serve server_js h api_login req logged_in) =
   Some (VNum 500,
         VObj [("error"%string,
                value_or (VStr "timeout of 10000ms exceeded")
                  (VStr (internal_error server_js api_login)))]) /\
   session (serve server_js h api_login req logged_in) =
   odooSessionCookie logged_in) /\
  (let h := host_of (NoReply EmptyString) in
   let req := with_key secret search_read in
   response (serve part_000 h api_odoo req logged_in) =
   Some (VNum 500,
         VObj [("error"%string,
                value_or (VStr EmptyString)
                  (VStr (internal_error part_000 api_odoo)))]) /\
   session (serve part_000 h api_odoo req logged_in) =
   odooSessionCookie logged_in).
Proof.
  split.
  - apply (no_reply_is_answered_500 server_js
             (host_of (NoReply "timeout of 10000ms exceeded")) api_login
             (with_key secret (login_body full_config)) logged_in
             (login_call server_js
                (host_of (NoReply "timeout of 10000ms exceeded"))
                (with_key secret (login_body full_config)) logged_in)
             "timeout of 10000ms exceeded").
    + vm_compute. reflexivity.
    + reflexivity.
  - apply (no_reply_is_answered_500 part_000 (host_of (NoReply EmptyString))
             api_odoo (with_key secret search_read) logged_in
             (odoo_call part_000 (host_of (NoReply EmptyString))
                (with_key secret search_read) logged_in)
             EmptyString).
    + vm_compute. reflexivity.
    + reflexivity.
Defined.

Lemma res_json_valid body w n :
  sent w = None -> statusCode w = VNum n -> 100 <= n <= 999 ->
  res_json body w =
  (Normal tt, with_sent (VNum n, if no_body n then VUndefined else body) w).
Proof.
  intros Hs Hc Hn. unfold res_json. rewrite Hs, Hc. cbn [status_int].
  rewrite int32_status by lia.
  assert (((n <? 100) || (999 <? n)) = false) as ->; [|reflexivity].
  apply orb_false_iff. split; apply Z.ltb_ge; lia.
Qed.

Lemma on_error_reply_any v rt msg r w :
  sent w = None -> nullish (resp_data r) = false ->
  100 <= resp_status r <= 999 ->
  sent (snd (on_error v rt (mkError msg (Some r)) w)) =
  Some (VNum (resp_status r),
        if no_body (resp_status r) then VUndefined
        else VObj [("error"%string,
                    value_or (prop (resp_data r) "error")
                             (VStr (default_detail v rt)))]).
Proof.
  intros Hs Hn Hb. destruct w as [ng ck cs dr co st sn]. simpl in Hs. subst.
  destruct v, rt; pieces; monad; rewrite Hn; monad;
    destruct (truthy (prop (resp_data r) "error")); monad;
    (erewrite res_json_valid by first [reflexivity | eassumption]);
    reflexivity.
Qed.

(** X10. On both routes of both variants: when the upstream answers the
    call with a (three-digit) status outside 200..299 and a body that is not
    [null], the caller is answered with that same status; the body is the
    reply's [error] member, or the route's fallback text when there is
    none, unless the status is one under which no body goes out (1xx, 204,
    205, 304): then the answer has the status and no body.  The session is
    left as it was, whatever headers the reply carries. *)
Theorem error_status_is_passed_on v h rt req w c r :
  outbound (serve v h rt req w) = calls w ++ [c] ->
  upstream h c = HttpReply r ->
  validateStatus (resp_status r) = false ->
  100 <= resp_status r <= 999 ->
  nullish (resp_data r) = false ->
  response (serve v h rt req w) =
  Some (VNum (resp_status r),
        if no_body (resp_status r) then VUndefined
        else VObj [("error"%string,
                    value_or (prop (resp_data r) "error")
                             (VStr (default_detail v rt)))]) /\
  session (serve v h rt req w) = odooSessionCookie w.
Proof.
  intros Hc Hu Hs Hb Hn. unfold outbound, response, session in *.
  destruct (serve_outcome v h rt req w)
    as [E|(c0 & w1 & E & Hw & Hck & Hsent & Hst)].
  - unfold outbound in E. rewrite E in Hc. now apply no_call_made in Hc.
  - rewrite E in *. apply issued_call in Hc as ->; [|assumption].
    rewrite settle_session_on_failure by now rewrite Hu.
    rewrite Hu. unfold settle. rewrite Hs. split; [|assumption].
    now apply on_error_reply_any.
Qed.

Lemma error_status_is_passed_on_witness :
  (let h := host_of (HttpReply not_found) in
   let req := with_key secret (login_body full_config) in
   response (serve part_000 h api_login req logged_in) =
   Some (VNum (resp_status not_found),
         if no_body (resp_status not_found) then VUndefined
         else VObj [("error"%string,
                     value_or (prop (resp_data not_found) "error")
                              (VStr (default_detail part_000 api_login)))]) /\
   session (serve part_000 h api_login req logged_in) =
   odooSessionCookie logged_in) /\
  (let h := host_of (HttpReply not_modified) in
   let req := with_key secret search_read in
   response (serve server_js h api_odoo req logged_in) =
   Some (VNum (resp_status not_modified),
         if no_body (resp_status not_modified) then VUndefined
         else VObj [("error"%string,
                     value_or (prop (resp_data not_modified) "error")
                              (VStr (default_detail server_js api_odoo)))]) /\
   session (serve server_js h api_odoo req logged_in) =
   odooSessionCookie logged_in).
Proof.
  split.
  - apply (error_status_is_passed_on part_000 (host_of (HttpReply not_found))
             api_login (with_key secret (login_body full_config)) logged_in
             (login_call part_000 (host_of (HttpReply not_found))
                (with_key secret (login_body full_config)) logged_in)
             not_found).
    + vm_compute. reflexivity.
    + reflexivity.
    + reflexivity.
    + simpl. lia.
    + reflexivity.
  - apply (error_status_is_passed_on server_js
             (host_of (HttpReply not_modified))
             api_odoo (with_key secret search_read) logged_in
             (odoo_call server_js (host_of (HttpReply not_modified))
                (with_key secret search_read) logged_in)
             not_modified).
    + vm_compute. reflexivity.
    + reflexivity.
    + reflexivity.
    + simpl. lia.
    + reflexivity.
Defined.

(** *** Login replies without a user identifier *)

(** The answer to a login whose call got a reply with a success status is
    the answer the second half of the handler gives to that reply. *)
Lemma login_answer v h req w c r :
  valid_key h req ->
  fields_present v req = true ->
  outbound (serve v h api_login req w) = calls w ++ [c] ->
  upstream h c = HttpReply r ->
  validateStatus (resp_status r) = true ->
  exists w2,
    response (serve v h api_login req w) =
    sent (snd (try_catch (on_reply v api_login r) (on_error v api_login) w2)) /\
    sent w2 = None /\ statusCode w2 = VNum 200.
Proof.
  intros Hk Hf Hc Hu Hs. unfold outbound, response in *.
  rewrite serve_accepted in * by assumption.
  destruct (login_started v h req w Hf) as (w1 & E & Hw & _ & Hsent & Hst).
  rewrite E in *. apply issued_call in Hc as ->; [|assumption].
  rewrite Hu. unfold settle. rewrite Hs.
  exists (with_call (login_call v h req w) w1). now repeat split.
Qed.

Lemma server_js_reply_error r w :
  sent w = None -> statusCode w = VNum 200 ->
  truthy (uid_of r) = false ->
  truthy (prop (resp_data r) "error") = true ->
  sent (snd (try_catch (on_reply server_js api_login r)
                       (on_error server_js api_login) w)) =
  Some (VNum 401,
        VObj [("error"%string,
               value_or (prop (prop (resp_data r) "error") "message")
                        (VStr "Odoo authentication failed"))]).
Proof.
  unfold uid_of. intros Hs Hc Hu He.
  pose proof (truthy_prop_nullish _ _ He) as N.
  pose proof (truthy_nullish _ He) as Ne.
  destruct w as [ng ck cs dr co st sn]. simpl in Hs, Hc. subst.
  pieces.
  destruct (truthy (prop (resp_data r) "result")) eqn:Tr;
    [pose proof (truthy_nullish _ Tr)|];
    destruct (resp_set_cookie r); decide_ifs;
    destruct (truthy (prop (prop (resp_data r) "error") "message"));
    reflexivity.
Qed.

(** X11. [server.js]: when the upstream answers a login with a success
    status and an error envelope (no user identifier, an [error] member),
    the caller is answered 401 with the upstream's error message, or with
    "Odoo authentication failed" when the envelope has none. *)
Theorem upstream_login_error_is_401 h req w c r :
  valid_key h req ->
  fields_present server_js req = true ->
  outbound (serve server_js h api_login req w) = calls w ++ [c] ->
  upstream h c = HttpReply r ->
  validateStatus (resp_status r) = true ->
  truthy (uid_of r) = false ->
  truthy (prop (resp_data r) "error") = true ->
  response (serve server_js h api_login req w) =
  Some (VNum 401,
        VObj [("error"%string,
               value_or (prop (prop (resp_data r) "error") "message")
                        (VStr "Odoo authentication failed"))]).
Proof.
  intros Hk Hf Hc Hu Hs Hid He.
  destruct (login_answer server_js h req w c r Hk Hf Hc Hu Hs)
    as (w2 & -> & Hsent & Hst).
  now apply server_js_reply_error.
Qed.

Lemma upstream_login_error_is_401_witness :
  response (serve server_js (host_of (HttpReply access_denied)) api_login
              (with_key secret (login_body full_config)) idle) =
  Some (VNum 401,
        VObj [("error"%string,
               value_or (prop (prop (resp_data access_denied) "error") "message")
                        (VStr "Odoo authentication failed"))]).
Proof.
  apply (upstream_login_error_is_401 (host_of (HttpReply access_denied))
           (with_key secret (login_body full_config)) idle
           (login_call server_js (host_of (HttpReply access_denied))
              (with_key secret (login_body full_config)) idle)
           access_denied).
  - presents_secret.
  - reflexivity.
  - vm_compute. reflexivity.
  - reflexivity.
  - reflexivity.
  - reflexivity.
  - reflexivity.
Defined.

Lemma part_000_reply_error r w :
  sent w = None -> statusCode w = VNum 200 ->
  truthy (uid_of r) = false ->
  truthy (prop (resp_data r) "error") = true ->
  truthy (prop (prop (resp_data r) "error") "response") = false ->
  sent (snd (try_catch (on_reply part_000 api_login r)
                       (on_error part_000 api_login) w)) =
  Some (VNum 500,
        VObj [("error"%string, VStr "Authentication failed");
              ("details"%string,
               value_or (prop (prop (resp_data r) "error") "message")
                        (VStr "Authentication failed"))]).
Proof.
  unfold uid_of. intros Hs Hc Hu He Hr.
  pose proof (truthy_prop_nullish _ _ He) as N.
  pose proof (truthy_nullish _ He) as Ne.
  assert (truthy (resp_data r) = true) as Td
    by (destruct (resp_data r); try discriminate; reflexivity).
  destruct w as [ng ck cs dr co st sn]. simpl in Hs, Hc. subst.
  pieces.
  destruct (truthy (prop (resp_data r) "result")) eqn:Tr;
    [pose proof (truthy_nullish _ Tr)|];
    destruct (resp_set_cookie r); decide_ifs;
    destruct (truthy (prop (prop (resp_data r) "error") "message")) eqn:Tm;
    decide_ifs; reflexivity.
Qed.

(** X12. Second variant: when the upstream answers a login with a success
    status and an error envelope (no user identifier, an [error] member
    that itself has no [response] member), the caller is answered 500, not
    401, with the error "Authentication failed" and, as details, the
    upstream's error message or the same text when there is none. *)
Theorem upstream_login_error_is_500 h req w c r :
  valid_key h req ->
  fields_present part_000 req = true ->
  outbound (serve part_000 h api_login req w) = calls w ++ [c] ->
  upstream h c = HttpReply r ->
  validateStatus (resp_status r) = true ->
  truthy (uid_of r) = false ->
  truthy (prop (resp_data r) "error") = true ->
  truthy (prop (prop (resp_data r) "error") "response") = false ->
  response (serve part_000 h api_login req w) =
  Some (VNum 500,
        VObj [("error"%string, VStr "Authentication failed");
              ("details"%string,
               value_or (prop (prop (resp_data r) "error") "message")
                        (VStr "Authentication failed"))]).
Proof.
  intros Hk Hf Hc Hu Hs Hid He Hr.
  destruct (login_answer part_000 h req w c r Hk Hf Hc Hu Hs)
    as (w2 & -> & Hsent & Hst).
  now apply part_000_reply_error.
Qed.

Lemma upstream_login_error_is_500_witness :
  response (serve part_000 (host_of (HttpReply access_denied)) api_login
              (with_key secret (login_body full_config)) idle) =
  Some (VNum 500,
        VObj [("error"%string, VStr "Authentication failed");
              ("details"%string,
               value_or (prop (prop (resp_data access_denied) "error") "message")
                        (VStr "Authentication failed"))]).
Proof.
  apply (upstream_login_error_is_500 (host_of (HttpReply access_denied))
           (with_key secret (login_body full_config)) idle
           (login_call part_000 (host_of (HttpReply access_denied))
              (with_key secret (login_body full_config)) idle)
           access_denied).
  - presents_secret.
  - reflexivity.
  - vm_compute. reflexivity.
  - reflexivity.
  - reflexivity.
  - reflexivity.
  - reflexivity.
  - reflexivity.
Defined.

Lemma server_js_reply_unexpected r w :
  sent w = None -> statusCode w = VNum 200 ->
  nullish (resp_data r) = false ->
  truthy (uid_of r) = false ->
  truthy (prop (resp_data r) "error") = false ->
  sent (snd (try_catch (on_reply server_js api_login r)
                       (on_error server_js api_login) w)) =
  Some (VNum 500,
        VObj [("error"%string, VStr "Unexpected Odoo login response")]).
Proof.
  unfold uid_of. intros Hs Hc N Hu He.
  destruct w as [ng ck cs dr co st sn]. simpl in Hs, Hc. subst.
  pieces.
  destruct (truthy (prop (resp_data r) "result")) eqn:Tr;
    [pose proof (truthy_nullish _ Tr)|];
    destruct (resp_set_cookie r); decide_ifs; reflexivity.
Qed.

(** X13. [server.js]: when the upstream answers a login with a success
    status and a body (not [null]) that carries neither a user identifier
    nor an [error] member, the caller is answered 500 "Unexpected Odoo
    login response". *)
Theorem unexpected_login_reply_is_500 h req w c r :
  valid_key h req ->
  fields_present server_js req = true ->
  outbound (serve server_js h api_login req w) = calls w ++ [c] ->
  upstream h c = HttpReply r ->
  validateStatus (resp_status r) = true ->
  nullish (resp_data r) = false ->
  truthy (uid_of r) = false ->
  truthy (prop (resp_data r) "error") = false ->
  response (serve server_js h api_login req w) =
  Some (VNum 500,
        VObj [("error"%string, VStr "Unexpected Odoo login response")]).
Proof.
  intros Hk Hf Hc Hu Hs Hn Hid He.
  destruct (login_answer server_js h req w c r Hk Hf Hc Hu Hs)
    as (w2 & -> & Hsent & Hst).
  now apply server_js_reply_unexpected.
Qed.

Lemma unexpected_login_reply_is_500_witness :
  response (serve server_js (host_of (HttpReply empty_envelope)) api_login
              (with_key secret (login_body full_config)) idle) =
  Some (VNum 500,
        VObj [("error"%string, VStr "Unexpected Odoo login response")]).
Proof.
  apply (unexpected_login_reply_is_500 (host_of (HttpReply empty_envelope))
           (with_key secret (login_body full_config)) idle
           (login_call server_js (host_of (HttpReply empty_envelope))
              (with_key secret (login_body full_config)) idle)
           empty_envelope).
  - presents_secret.
  - reflexivity.
  - vm_compute. reflexivity.
  - reflexivity.
  - reflexivity.
  - reflexivity.
  - reflexivity.
  - reflexivity.
Defined.

Lemma part_000_reply_without_error r w :
  sent w = None -> statusCode w = VNum 200 ->
  truthy (uid_of r) = false ->
  nullish (error_of r) = true ->
  sent (snd (try_catch (on_reply part_000 api_login r)
                       (on_error part_000 api_login) w)) =
  Some (VNum 500,
        VObj [("error"%string,
               VStr (err_message (TypeError_read (error_of r) "response")))]).
Proof.
  unfold uid_of, error_of. intros Hs Hc Hu He.
  destruct w as [ng ck cs dr co st sn]. simpl in Hs, Hc. subst.
  pieces.
  destruct (truthy (resp_data r)) eqn:Td.
  - pose proof (truthy_nullish _ Td) as N.
    assert (truthy (prop (resp_data r) "error") = false) as Te
      by (destruct (prop (resp_data r) "error"); try discriminate; reflexivity).
    destruct (truthy (prop (resp_data r) "result")) eqn:Tr;
      [pose proof (truthy_nullish _ Tr)|];
      destruct (resp_set_cookie r); decide_ifs;
      destruct (prop (resp_data r) "error"); try discriminate; reflexivity.
  - destruct (resp_set_cookie r); decide_ifs;
      destruct (resp_data r); try discriminate; reflexivity.
Qed.

(** X14. Second variant: when the upstream answers a login with a success
    status and a body that carries neither a user identifier nor an error
    (the body is [null], or an object whose [error] member is absent or
    [null]), the handler's own read of [error.response] throws; the [catch]
    block answers 500 with the text of that TypeError as the error. *)
Theorem login_reply_without_error_is_500 h req w c r :
  valid_key h req ->
  fields_present part_000 req = true ->
  outbound (serve part_000 h api_login req w) = calls w ++ [c] ->
  upstream h c = HttpReply r ->
  validateStatus (resp_status r) = true ->
  truthy (uid_of r) = false ->
  nullish (error_of r) = true ->
  response (serve part_000 h api_login req w) =
  Some (VNum 500,
        VObj [("error"%string,
               VStr (err_message (TypeError_read (error_of r) "response")))]).
Proof.
  intros Hk Hf Hc Hu Hs Hid He.
  destruct (login_answer part_000 h req w c r Hk Hf Hc Hu Hs)
    as (w2 & -> & Hsent & Hst).
  now apply part_000_reply_without_error.
Qed.

Lemma login_reply_without_error_is_500_witness :
  response (serve part_000 (host_of (HttpReply empty_envelope)) api_login
              (with_key secret (login_body full_config)) idle) =
  Some (VNum 500,
        VObj [("error"%string,
               VStr (err_message
                       (TypeError_read (error_of empty_envelope) "response")))]).
Proof.
  apply (login_reply_without_error_is_500
           (host_of (HttpReply empty_envelope))
           (with_key secret (login_body full_config)) idle
           (login_call part_000 (host_of (HttpReply empty_envelope))
              (with_key secret (login_body full_config)) idle)
           empty_envelope).
  - presents_secret.
  - reflexivity.
  - vm_compute. reflexivity.
  - reflexivity.
  - reflexivity.
  - reflexivity.
  - reflexivity.
Defined.

(** *** The cookie surgery of [server.js] *)

Lemma truncated_pair cookie : pair_of cookie (truncate_at_semicolon cookie).
Proof.
  unfold pair_of. induction cookie as [|a rest [IHo IHs]]; simpl.
  - split; [reflexivity|now left].
  - destruct (Ascii.eqb a ";") eqn:E; simpl.
    + apply Ascii.eqb_eq in E. subst. split; [reflexivity|].
      right. now exists rest.
    + rewrite E, IHo. split; [reflexivity|].
      destruct IHs as [<-|(tail & Ht)]; [now left|].
      right. exists tail. simpl. now rewrite <- Ht.
Qed.

(** X15. What [server.js] stores for a Set-Cookie header is the join, with
    ["; "], of one pair per cookie, in order; each pair contains no
    semicolon and is the whole cookie or the part of it before one of its
    semicolons (so: before the first). *)
Theorem cookie_pairs_keeps_pairs header :
  exists pairs,
    ServerJs.cookie_pairs header = join "; " pairs /\
    Forall2 pair_of header pairs.
Proof.
  exists (map (fun cookie => first (split ";" cookie)) header).
  split; [reflexivity|].
  induction header as [|cookie rest IH]; simpl; constructor; [|assumption].
  rewrite first_split_truncates. apply truncated_pair.
Qed.

Lemma untouched_without_semicolon cookie :
  occurs ";" cookie = false -> truncate_at_semicolon cookie = cookie.
Proof.
  induction cookie as [|a rest IH]; simpl; [reflexivity|].
  destruct (Ascii.eqb a ";"); simpl; [discriminate|].
  intro H. now rewrite IH.
Qed.

(** X16. A Set-Cookie header whose cookies carry no attributes (no
    semicolon in any of them) is stored by [server.js] as the plain join of
    its cookies. *)
Theorem cookie_pairs_without_attributes header :
  Forall (fun cookie => occurs ";" cookie = false) header ->
  ServerJs.cookie_pairs header = join "; " header.
Proof.
  intro H. unfold ServerJs.cookie_pairs. f_equal.
  induction H as [|cookie rest Hc _ IH]; simpl; [reflexivity|].
  now rewrite first_split_truncates, untouched_without_semicolon, IH.
Qed.

Lemma cookie_pairs_without_attributes_witness :
  ServerJs.cookie_pairs ["session_id=abc123"; "frontend_lang=en_US"]%string =
  join "; " ["session_id=abc123"; "frontend_lang=en_US"]%string.
Proof.
  apply (cookie_pairs_without_attributes
           ["session_id=abc123"; "frontend_lang=en_US"]%string).
  repeat constructor.
Defined.

(** *** The envelopes *)

(** X17. A login request that passes the guard and the validation, and
    whose target address is a string [u], sends one envelope to
    [u/web/session/authenticate]: JSON-RPC 2.0, method "call", parameters
    [db], [login] and [password] taken from the request's [db], [username]
    and [password], content type JSON, a timeout of 10 seconds. *)
Theorem login_envelope_sent v h req w u :
  valid_key h req ->
  fields_present v req = true ->
  target v h req = VStr u ->
  exists c,
    outbound (serve v h api_login req w) = calls w ++ [c] /\
    call_url c = (u ++ "/web/session/authenticate")%string /\
    prop (call_payload c) "jsonrpc" = VStr "2.0" /\
    prop (call_payload c) "method" = VStr "call" /\
    prop (call_payload c) "params" =
    VObj [("db"%string, prop (odooConfig_of req) "db");
          ("login"%string, prop (odooConfig_of req) "username");
          ("password"%string, prop (odooConfig_of req) "password")] /\
    cfg_headers (call_config c) =
    [("Content-Type"%string, VStr "application/json")] /\
    cfg_timeout (call_config c) = 10000.
Proof.
  intros Hk Hf Ht. unfold outbound. rewrite serve_accepted by assumption.
  destruct (login_started v h req w Hf) as (w1 & E & Hc & _).
  rewrite E. exists (login_call v h req w). split.
  - now rewrite settle_calls, Hc.
  - destruct v; cbn in Ht |- *; rewrite Ht; repeat split.
Qed.

Lemma login_envelope_sent_witness :
  let h := host_of (HttpReply welcome) in
  let req := with_key secret (login_body full_config) in
  exists c,
    outbound (serve server_js h api_login req idle) = calls idle ++ [c] /\
    call_url c = ("https://odoo.example" ++ "/web/session/authenticate")%string /\
    prop (call_payload c) "jsonrpc" = VStr "2.0" /\
    prop (call_payload c) "method" = VStr "call" /\
    prop (call_payload c) "params" =
    VObj [("db"%string, prop (odooConfig_of req) "db");
          ("login"%string, prop (odooConfig_of req) "username");
          ("password"%string, prop (odooConfig_of req) "password")] /\
    cfg_headers (call_config c) =
    [("Content-Type"%string, VStr "application/json")] /\
    cfg_timeout (call_config c) = 10000.
Proof.
  apply (login_envelope_sent server_js (host_of (HttpReply welcome))
           (with_key secret (login_body full_config)) idle
           "https://odoo.example").
  - presents_secret.
  - reflexivity.
  - reflexivity.
Defined.

(** X18. Second variant: the login handler does not check that [ODOO_URL]
    is set (the forwarding handler does).  With [ODOO_URL] unset, a login
    request with its fields present still issues its call, to the address
    "undefined/web/session/authenticate". *)
Theorem login_without_ODOO_URL_still_calls h req w :
  valid_key h req ->
  fields_present part_000 req = true ->
  ODOO_URL h = None ->
  exists c,
    outbound (serve part_000 h api_login req w) = calls w ++ [c] /\
    call_url c = "undefined/web/session/authenticate"%string.
Proof.
  intros Hk Hf Hu. unfold outbound. rewrite serve_accepted by assumption.
  destruct (login_started part_000 h req w Hf) as (w1 & E & Hc & _).
  rewrite E. exists (login_call part_000 h req w). split.
  - now rewrite settle_calls, Hc.
  - cbn. now rewrite Hu.
Qed.

Lemma login_without_ODOO_URL_still_calls_witness :
  exists c,
    outbound (serve part_000 (host_without_url (HttpReply welcome)) api_login
                (with_key secret (login_body full_config)) idle)
    = calls idle ++ [c] /\
    call_url c = "undefined/web/session/authenticate"%string.
Proof.
  apply (login_without_ODOO_URL_still_calls
           (host_without_url (HttpReply welcome))
           (with_key secret (login_body full_config)) idle).
  - presents_secret.
  - reflexivity.
  - reflexivity.
Defined.

(** X19. A forwarded call that is let through, and whose target address
    is a string [u], sends one envelope to [u/web/dataset/call_kw]: JSON-RPC
    2.0, method "call", and as parameters the request's own [model],
    [method], [args] and [kwargs], unchanged, with a timeout of 10
    seconds. *)
Theorem forwarded_envelope_sent v h req w u :
  valid_key h req ->
  let_through v h req w ->
  target v h req = VStr u ->
  exists c,
    outbound (serve v h api_odoo req w) = calls w ++ [c] /\
    call_url c = (u ++ "/web/dataset/call_kw")%string /\
    prop (call_payload c) "jsonrpc" = VStr "2.0" /\
    prop (call_payload c) "method" = VStr "call" /\
    prop (call_payload c) "params" =
    VObj [("model"%string, prop (req_body req) "model");
          ("method"%string, prop (req_body req) "method");
          ("args"%string, prop (req_body req) "args");
          ("kwargs"%string, prop (req_body req) "kwargs")] /\
    cfg_timeout (call_config c) = 10000.
Proof.
  intros Hk Hl Ht. unfold outbound. rewrite serve_accepted by assumption.
  destruct (odoo_started v h req w Hl) as (w1 & E & Hc & _).
  rewrite E. exists (odoo_call v h req w). split.
  - now rewrite settle_calls, Hc.
  - destruct v; cbn in Ht |- *; rewrite Ht; repeat split.
Qed.

Lemma forwarded_envelope_sent_witness :
  let h := host_of (HttpReply records) in
  let req := with_key secret search_read in
  exists c,
    outbound (serve part_000 h api_odoo req idle) = calls idle ++ [c] /\
    call_url c = ("https://odoo.example" ++ "/web/dataset/call_kw")%string /\
    prop (call_payload c) "jsonrpc" = VStr "2.0" /\
    prop (call_payload c) "method" = VStr "call" /\
    prop (call_payload c) "params" =
    VObj [("model"%string, prop (req_body req) "model");
          ("method"%string, prop (req_body req) "method");
          ("args"%string, prop (req_body req) "args");
          ("kwargs"%string, prop (req_body req) "kwargs")] /\
    cfg_timeout (call_config c) = 10000.
Proof.
  apply (forwarded_envelope_sent part_000 (host_of (HttpReply records))
           (with_key secret search_read) idle "https://odoo.example").
  - presents_secret.
  - split; reflexivity.
  - reflexivity.
Defined.
